(** * Product catalog service: handlers of [service/routes.py]

    The request handlers are embedded from [service/routes.py].  The
    entity and query layer ([service/models.py]) and the error handlers
    ([service/common/error_handlers.py]) are not part of the sources at
    hand; they are modelled from the specification and marked as such. *)

From stdpp Require Import base option list strings gmap fin_maps pretty.
From Stdlib Require Import ZArith Ascii String Lia.

Local Open Scope string_scope.
Local Open Scope Z_scope.

(** ** Python values *)

(** What [request.get_json()] hands to a handler: [None], booleans,
    numbers (a decimal literal, mantissa and exponent), strings, lists
    and dicts with string keys. *)
#[warnings="-register-all"] Inductive pyval : Type :=
  | PNone
  | PBool (b : bool)
  | PNum (mantissa exponent : Z)
  | PStr (s : string)
  | PList (l : list pyval)
  | PDict (m : gmap string pyval).

(** Python truthiness, the test behind [if not data]. *)
Definition truthy (v : pyval) : bool :=
  match v with
  | PNone => false
  | PBool b => b
  | PNum m _ => negb (m =? 0)
  | PStr s => negb (String.eqb s "")
  | PList l => match l with [] => false | _ => true end
  | PDict m => negb (Nat.eqb (size m) 0)
  end.

(** [str.lower()] on the ASCII range: the letters [A]-[Z] are mapped to
    [a]-[z], every other byte is kept. *)
Definition lower_ascii (c : ascii) : ascii :=
  let n := N_of_ascii c in
  if ((65 <=? n) && (n <=? 90))%N then ascii_of_N (n + 32) else c.

Fixpoint lower (s : string) : string :=
  match s with
  | EmptyString => EmptyString
  | String c s' => String (lower_ascii c) (lower s')
  end.

(** ** Exceptions and the error monad *)

(** [Abort] is flask's [abort(code, description)]; the two error classes
    of the entity layer are named as in the specification; [BuildError]
    is what [url_for] raises when a route parameter is missing. *)
Inductive exn : Type :=
  | Abort (code : Z) (description : string)
  | ValidationError (msg : string)
  | PersistenceError (msg : string)
  | BuildError.

Definition result (A : Type) : Type := exn + A.

Definition Ok {A} (a : A) : result A := inr a.
Definition Raise {A} (e : exn) : result A := inl e.

#[global] Instance result_ret : MRet result := λ A a, Ok a.
#[global] Instance result_bind : MBind result := λ A B f r,
  match r with
  | inl e => inl e
  | inr a => f a
  end.

(** Status codes of [service.common.status]. *)
Definition HTTP_200_OK : Z := 200.
Definition HTTP_201_CREATED : Z := 201.
Definition HTTP_204_NO_CONTENT : Z := 204.
Definition HTTP_400_BAD_REQUEST : Z := 400.
Definition HTTP_404_NOT_FOUND : Z := 404.
Definition HTTP_415_UNSUPPORTED_MEDIA_TYPE : Z := 415.
Definition HTTP_500_INTERNAL_SERVER_ERROR : Z := 500.

(** ** The Product entity *)

(** Modelled from the spec: the enumeration [Category] of
    [service/models.py], a closed set of six members. *)
Inductive Category : Type :=
  | UNKNOWN | CLOTHS | FOOD | HOUSEWARES | AUTOMOTIVE | TOOLS.

#[global] Instance Category_eq_dec : EqDecision Category.
Proof. solve_decision. Defined.

(** Modelled from the spec: the member name of a category, the text
    that [serialize] puts on the wire. *)
Definition Category_name (c : Category) : string :=
  match c with
  | UNKNOWN => "UNKNOWN"
  | CLOTHS => "CLOTHS"
  | FOOD => "FOOD"
  | HOUSEWARES => "HOUSEWARES"
  | AUTOMOTIVE => "AUTOMOTIVE"
  | TOOLS => "TOOLS"
  end.

(** Modelled from the spec: the members, in declaration order. *)
Definition Category_members : list Category :=
  [UNKNOWN; CLOTHS; FOOD; HOUSEWARES; AUTOMOTIVE; TOOLS].

(** Modelled from the spec: lookup of a member by its name; a string
    that names no member is not recognized. *)
Definition Category_of_name (s : string) : option Category :=
  List.find (λ c, String.eqb (Category_name c) s) Category_members.

Arguments Category_of_name : simpl never.

(** Modelled from the spec: the record of [service/models.py].  [id] is
    absent before creation.  [name], [description] and [price] hold the
    value read from the mapping as it is; [available] and [category] are
    checked on the way in. *)
Record Product : Type := mkProduct {
  id : option Z;
  name : pyval;
  description : pyval;
  price : pyval;
  available : bool;
  category : Category
}.

(** Modelled from the spec: [Product()], an entity that was never
    persisted.  Its five data fields are placeholders, every successful
    [deserialize] overwrites all of them. *)
Definition Product_new : Product :=
  {| id := None; name := PNone; description := PNone; price := PNone;
     available := false; category := UNKNOWN |}.

(** The assignment [product.id = k]. *)
Definition set_id (k : option Z) (p : Product) : Product :=
  {| id := k; name := name p; description := description p;
     price := price p; available := available p; category := category p |}.

(** Modelled from the spec: [serialize], the six-key mapping of an
    entity.  It never fails. *)
Definition serialize (p : Product) : gmap string pyval :=
  <["id" := match id p with Some k => PNum k 0 | None => PNone end]>
  (<["name" := name p]>
  (<["description" := description p]>
  (<["price" := price p]>
  (<["available" := PBool (available p)]>
  (<["category" := PStr (Category_name (category p))]> ∅))))).

(** Modelled from the spec: reading a required key of the mapping. *)
Definition required (m : gmap string pyval) (k : string) : result pyval :=
  match m !! k with
  | Some v => Ok v
  | None => Raise (ValidationError ("Invalid product: missing " ++ k))
  end.

(** Modelled from the spec: [available] must be a boolean. *)
Definition as_bool (v : pyval) : result bool :=
  match v with
  | PBool b => Ok b
  | _ => Raise (ValidationError "Invalid type for boolean [available]")
  end.

(** Modelled from the spec: [category] must be the name of a member. *)
Definition as_category (v : pyval) : result Category :=
  match v with
  | PStr s =>
      match Category_of_name s with
      | Some c => Ok c
      | None => Raise (ValidationError ("Invalid attribute: " ++ s))
      end
  | _ => Raise (ValidationError "Invalid attribute: category")
  end.

(** Modelled from the spec: [deserialize], which reads [name],
    [description], [price], [available] and [category] from the mapping
    and overwrites them on the entity; [id] is not read.  It fails with
    [ValidationError] when a required key is missing, when [available]
    is not a boolean, when [category] names no member, and when the
    input is not a mapping. *)
Definition deserialize (self : Product) (data : pyval) : result Product :=
  match data with
  | PDict m =>
      n ← required m "name";
      d ← required m "description";
      p ← required m "price";
      a ← required m "available";
      b ← as_bool a;
      c ← required m "category";
      k ← as_category c;
      Ok {| id := id self; name := n; description := d; price := p;
            available := b; category := k |}
  | _ => Raise (ValidationError "Invalid product: body contained bad or no data")
  end.

(** ** Storage and query layer *)

(** Modelled from the spec: the single table behind the entity.  A row
    holds the five data columns; the primary key is the key of the map,
    so no two rows share an id.  [next_id] is the generator of the
    insert-with-generated-id operation. *)
Record Row : Type := mkRow {
  r_name : pyval;
  r_description : pyval;
  r_price : pyval;
  r_available : bool;
  r_category : Category
}.

Record Store : Type := mkStore {
  rows : gmap Z Row;
  next_id : Z
}.

(** Modelled from the spec: the columns of an entity, and the entity
    read back from the row stored under a key. *)
Definition to_row (p : Product) : Row :=
  {| r_name := name p; r_description := description p; r_price := price p;
     r_available := available p; r_category := category p |}.

Definition of_row (k : Z) (r : Row) : Product :=
  {| id := Some k; name := r_name r; description := r_description r;
     price := r_price r; available := r_available r;
     category := r_category r |}.

(** The entities of a selection of rows, in storage-defined order. *)
Definition materialize (t : gmap Z Row) : list Product :=
  (λ kr, of_row kr.1 kr.2) <$> map_to_list t.

#[global] Instance pyval_is_str_dec (v : pyval) (s : string) :
  Decision (v = PStr s).
Proof.
  destruct v as [| | | s' | |];
    try (right; discriminate).
  destruct (decide (s' = s)) as [->|Hne]; [left; reflexivity|].
  right; intros [=]; contradiction.
Defined.

(** Modelled from the spec: [Product.all()], the entire collection. *)
Definition Product_all (db : Store) : list Product :=
  materialize (rows db).

(** Modelled from the spec: [Product.find(id)], the record with this
    identifier or absent. *)
Definition Product_find (k : Z) (db : Store) : option Product :=
  of_row k <$> rows db !! k.

(** Modelled from the spec: [Product.find_by_name(name)], selection by
    equality on the name column. *)
Definition Product_find_by_name (n : string) (db : Store) : list Product :=
  materialize (filter (λ kr, r_name kr.2 = PStr n) (rows db)).

(** Modelled from the spec: [Product.find_by_category(category)],
    selection by equality on the category column.  The handler passes
    the query string, which is compared with the member name; a string
    that names no member selects nothing. *)
Definition Product_find_by_category (c : string) (db : Store) : list Product :=
  materialize (filter (λ kr, Category_name (r_category kr.2) = c) (rows db)).

(** Modelled from the spec: [Product.find_by_availability(available)],
    selection by equality on the boolean column. *)
Definition Product_find_by_availability (a : bool) (db : Store) : list Product :=
  materialize (filter (λ kr, r_available kr.2 = a) (rows db)).

(** Handlers run in a state and error monad over the store. *)
Definition M (A : Type) : Type := Store → result A * Store.

#[global] Instance M_ret : MRet M := λ A a db, (Ok a, db).
#[global] Instance M_bind : MBind M := λ A B f c db,
  match c db with
  | (inl e, db') => (inl e, db')
  | (inr a, db') => f a db'
  end.

Definition gets {A} (f : Store → A) : M A := λ db, (Ok (f db), db).
Definition throw {A} (e : exn) : M A := λ db, (Raise e, db).
Definition lift {A} (r : result A) : M A := λ db, (r, db).

Definition abort {A} (code : Z) (description : string) : M A :=
  throw (Abort code description).

(** Modelled from the spec: [create()], which assigns a new unique id
    and persists the record. *)
Definition Product_create (p : Product) : M Product := λ db,
  let k := next_id db in
  (Ok (set_id (Some k) p),
   {| rows := <[k := to_row p]> (rows db); next_id := k + 1 |}).

(** Modelled from the spec: [update()], which persists the full record
    of an existing id and fails with [PersistenceError] when the id is
    not in storage. *)
Definition Product_update (p : Product) : M unit := λ db,
  match id p with
  | Some k =>
      match rows db !! k with
      | Some _ =>
          (Ok tt, {| rows := <[k := to_row p]> (rows db);
                     next_id := next_id db |})
      | None => (Raise (PersistenceError "Update of a missing record"), db)
      end
  | None => (Raise (PersistenceError "Update called with empty ID field"), db)
  end.

(** Modelled from the spec: [delete()], which removes the record with
    this id and does nothing when it is absent. *)
Definition Product_delete (p : Product) : M unit := λ db,
  match id p with
  | Some k =>
      (Ok tt, {| rows := delete k (rows db); next_id := next_id db |})
  | None => (Ok tt, db)
  end.


(** Modelled from the spec: the stores that the operations above can
    reach.  Every stored id is positive and was handed out by the
    generator.  Storage failures are not modelled. *)
Definition wf (db : Store) : Prop :=
  0 < next_id db ∧ ∀ k, is_Some (rows db !! k) → 0 < k < next_id db.

(** The store before the first request. *)
Definition empty_store : Store := {| rows := ∅; next_id := 1 |}.

(** ** Requests and responses *)

(** The part of flask's [request] the handlers read.  [headers] are
    looked up without regard to the case of the header name, [args] is
    the query string in order, [json] is the parsed body, [None] when
    the body is missing or is not JSON. *)
Record Request : Type := mkRequest {
  url_scheme : string;
  host : string;
  headers : list (string * string);
  args : list (string * string);
  json : option pyval
}.

Inductive Body : Type :=
  | Text (s : string)
  | Json (v : pyval).

Record Response : Type := mkResponse {
  status : Z;
  body : Body;
  response_headers : list (string * string)
}.

(** [request.headers[key]], [None] when [key not in request.headers]. *)
Definition headers_get (h : list (string * string)) (key : string) : option string :=
  snd <$> List.find (λ kv, String.eqb (lower kv.1) (lower key)) h.

(** [request.args.get(key)]: the first value given for [key]. *)
Definition args_get (a : list (string * string)) (key : string) : option string :=
  snd <$> List.find (λ kv, String.eqb kv.1 key) a.

(** [request.get_json()]: a body that is missing or does not parse is
    answered by flask with 400. *)
Definition get_json (req : Request) : M pyval :=
  match json req with
  | Some v => mret v
  | None => abort HTTP_400_BAD_REQUEST "Failed to decode JSON object"
  end.

(** [jsonify] of a serialized entity and of a list of them. *)
Definition jsonify (m : gmap string pyval) : Body := Json (PDict m).
Definition jsonify_list (l : list (gmap string pyval)) : Body :=
  Json (PList (PDict <$> l)).

(** [url_for("get_products", product_id=..., _external=True)]. *)
Definition url_for_get_products (req : Request) (product_id : option Z) : M string :=
  match product_id with
  | Some k =>
      mret (url_scheme req ++ "://" ++ host req ++ "/api/products/" ++ pretty k)
  | None => throw BuildError
  end.

Definition not_found_message (product_id : Z) : string :=
  "Product with id '" ++ pretty product_id ++ "' not found".

(** ** Handlers of [service/routes.py] *)



Definition check_content_type (req : Request) (content_type : string) : M unit :=
  match headers_get (headers req) "Content-Type" with
  | None =>
      abort HTTP_415_UNSUPPORTED_MEDIA_TYPE ("Content-Type must be " ++ content_type)
  | Some ct =>
      if negb (String.eqb ct content_type)
      then abort HTTP_415_UNSUPPORTED_MEDIA_TYPE ("Content-Type must be " ++ content_type)
      else mret tt
  end.


(** [POST /api/products] *)
Definition create_products (req : Request) : M Response :=
  check_content_type req "application/json";;
  data ← get_json req;
  if negb (truthy data) then abort HTTP_400_BAD_REQUEST "Invalid JSON data" else
  product ← lift (deserialize Product_new data);
  product ← Product_create product;
  location_url ← url_for_get_products req (id product);
  mret {| status := HTTP_201_CREATED;
          body := jsonify (serialize product);
          response_headers := [("Location", location_url)] |}.

(** [GET /api/products/<int:product_id>] *)
Definition get_products (product_id : Z) : M Response :=
  product ← gets (Product_find product_id);
  match product with
  | None => abort HTTP_404_NOT_FOUND (not_found_message product_id)
  | Some product =>
      mret {| status := HTTP_200_OK; body := jsonify (serialize product);
              response_headers := [] |}
  end.

(** [PUT /api/products/<int:product_id>].  The body of the handler is
    written over the [deserialize] it calls, so that what it does to
    the id can be stated for whatever [deserialize] does. *)
Section update_handler.
Variable deserialize_method : Product → pyval → result Product.

Definition update_products_with (req : Request) (product_id : Z) : M Response :=
  check_content_type req "application/json";;
  product ← gets (Product_find product_id);
  match product with
  | None => abort HTTP_404_NOT_FOUND (not_found_message product_id)
  | Some product =>
      data ← get_json req;
      if negb (truthy data) then abort HTTP_400_BAD_REQUEST "Invalid JSON data" else
      product ← lift (deserialize_method product data);
      let product := set_id (Some product_id) product in
      Product_update product;;
      mret {| status := HTTP_200_OK; body := jsonify (serialize product);
              response_headers := [] |}
  end.
End update_handler.

Definition update_products : Request → Z → M Response :=
  update_products_with deserialize.

(** [DELETE /api/products/<int:product_id>] *)
Definition delete_products (product_id : Z) : M Response :=
  product ← gets (Product_find product_id);
  match product with
  | Some product => Product_delete product
  | None => mret tt
  end;;
  mret {| status := HTTP_204_NO_CONTENT; body := Text ""; response_headers := [] |}.

(** [available.lower() in ["true", "1", "yes"]] *)
Definition parse_available (available : string) : bool :=
  bool_decide (lower available ∈ ["true"; "1"; "yes"]).

(** [GET /api/products]: [if name:] and [elif category:] test the
    truth of the value, which [None] and the empty string fail;
    [elif available is not None:] tests presence. *)
Definition list_products (req : Request) : M Response :=
  let name := args_get (args req) "name" in
  let category := args_get (args req) "category" in
  let available := args_get (args req) "available" in
  products ←
    match name with
    | Some (String _ _ as name) => gets (Product_find_by_name name)
    | _ =>
        match category with
        | Some (String _ _ as category) => gets (Product_find_by_category category)
        | _ =>
            match available with
            | Some available =>
                let available := parse_available available in
                gets (Product_find_by_availability available)
            | None => gets Product_all
            end
        end
    end;
  let results := serialize <$> products in
  mret {| status := HTTP_200_OK; body := jsonify_list results;
          response_headers := [] |}.

(** ** From handler outcome to HTTP response *)

(** Modelled from the spec: the error handlers of
    [service/common/error_handlers.py].  An [abort] answers with its
    code, a validation failure with 400, anything else with 500. *)
Definition error_response (e : exn) : Response :=
  match e with
  | Abort code description =>
      {| status := code; body := Text description; response_headers := [] |}
  | ValidationError msg =>
      {| status := HTTP_400_BAD_REQUEST; body := Text msg; response_headers := [] |}
  | PersistenceError msg =>
      {| status := HTTP_500_INTERNAL_SERVER_ERROR; body := Text msg;
         response_headers := [] |}
  | BuildError =>
      {| status := HTTP_500_INTERNAL_SERVER_ERROR; body := Text "Internal Server Error";
         response_headers := [] |}
  end.

(** One request served against the store: the response and the store
    left behind. *)
Definition serve (h : M Response) (db : Store) : Response * Store :=
  match h db with
  | (inr r, db') => (r, db')
  | (inl e, db') => (error_response e, db')
  end.

(** ** The specification's words, as predicates *)

Definition required_keys : list string :=
  ["name"; "description"; "price"; "available"; "category"].

(** The inputs the specification calls bad: not a mapping, a required
    key missing, [available] present and not a boolean, [category]
    present and not the name of a member. *)
Definition bad_input (data : pyval) : Prop :=
  match data with
  | PDict m =>
      (∃ k, k ∈ required_keys ∧ m !! k = None)
      ∨ (∃ v, m !! "available" = Some v ∧ ∀ b, v ≠ PBool b)
      ∨ (∃ v, m !! "category" = Some v ∧ ∀ c, v ≠ PStr (Category_name c))
  | _ => True
  end.

(** A valid field mapping: the five keys are there, [available] is a
    boolean and [category] is a member name. *)
Definition valid_mapping (m : gmap string pyval) : Prop :=
  (∀ k, k ∈ required_keys → is_Some (m !! k))
  ∧ (∃ b, m !! "available" = Some (PBool b))
  ∧ (∃ c, m !! "category" = Some (PStr (Category_name c))).

(** The entity the specification calls [entity_from(M)]. *)
Definition entity_from (m : gmap string pyval) : result Product :=
  deserialize Product_new (PDict m).

(** Two entities agree on the five defined fields. *)
Definition same_fields (p q : Product) : Prop :=
  name p = name q ∧ description p = description q ∧ price p = price q
  ∧ available p = available q ∧ category p = category q.

(** The request carries the header [Content-Type: application/json],
    letter for letter. *)
Definition json_content_type (req : Request) : Prop :=
  headers_get (headers req) "Content-Type" = Some "application/json".

(** The same request with another parsed body. *)
Definition with_json (req : Request) (v : pyval) : Request :=
  {| url_scheme := url_scheme req; host := host req; headers := headers req;
     args := args req; json := Some v |}.

(** The responses of the table of the HTTP surface. *)
Definition unsupported_media_type : Response :=
  {| status := HTTP_415_UNSUPPORTED_MEDIA_TYPE;
     body := Text "Content-Type must be application/json";
     response_headers := [] |}.

Definition not_found (product_id : Z) : Response :=
  {| status := HTTP_404_NOT_FOUND; body := Text (not_found_message product_id);
     response_headers := [] |}.

Definition no_content : Response :=
  {| status := HTTP_204_NO_CONTENT; body := Text ""; response_headers := [] |}.

Definition entity_response (code : Z) (p : Product) (hs : list (string * string)) : Response :=
  {| status := code; body := jsonify (serialize p); response_headers := hs |}.

Definition list_response (products : list Product) : Response :=
  {| status := HTTP_200_OK; body := jsonify_list (serialize <$> products);
     response_headers := [] |}.

(** The selection of a list request when precedence goes by presence
    of the parameter: [name] if present, else [category] if present,
    else [available] if present, else everything. *)
Definition selection_by_presence (req : Request) (db : Store) : list Product :=
  match args_get (args req) "name" with
  | Some n => Product_find_by_name n db
  | None =>
      match args_get (args req) "category" with
      | Some c => Product_find_by_category c db
      | None =>
          match args_get (args req) "available" with
          | Some a => Product_find_by_availability (parse_available a) db
          | None => Product_all db
          end
      end
  end.

(** A query parameter given with a value that is not empty. *)
Definition given (req : Request) (key : string) : option string :=
  match args_get (args req) key with
  | Some v => if String.eqb v "" then None else Some v
  | None => None
  end.

(** The selection of a list request when [name] and [category] count
    only with a value that is not empty, and [available] counts as soon
    as it is present. *)
Definition selection_by_value (req : Request) (db : Store) : list Product :=
  match given req "name" with
  | Some n => Product_find_by_name n db
  | None =>
      match given req "category" with
      | Some c => Product_find_by_category c db
      | None =>
          match args_get (args req) "available" with
          | Some a => Product_find_by_availability (parse_available a) db
          | None => Product_all db
          end
      end
  end.

(** The address of a record, as [url_for] builds it. *)
Definition location_of (req : Request) (k : Z) : string :=
  url_scheme req ++ "://" ++ host req ++ "/api/products/" ++ pretty k.

(** The store after the record of [p] was written under the key [k]. *)
Definition insert_row (k : Z) (p : Product) (db : Store) (next : Z) : Store :=
  {| rows := <[k := to_row p]> (rows db); next_id := next |}.

(** ** Sample data *)

(** The body of the creation scenario, with an [id] the client made up. *)
Definition fedora : gmap string pyval :=
  <["id" := PNum 77 0]>
  (<["name" := PStr "Fedora"]>
  (<["description" := PStr "A red hat"]>
  (<["price" := PNum 1250 (-2)]>
  (<["available" := PBool true]>
  (<["category" := PStr "CLOTHS"]> ∅))))).

Definition fedora_row : Row :=
  {| r_name := PStr "Fedora"; r_description := PStr "A red hat";
     r_price := PNum 1250 (-2); r_available := true; r_category := CLOTHS |}.

Definition json_request (data : pyval) : Request :=
  {| url_scheme := "http"; host := "localhost";
     headers := [("Content-Type", "application/json")];
     args := []; json := Some data |}.

Definition charset_request (data : pyval) : Request :=
  {| url_scheme := "http"; host := "localhost";
     headers := [("Content-Type", "application/json; charset=utf-8")];
     args := []; json := Some data |}.

Definition bare_request (data : pyval) : Request :=
  {| url_scheme := "http"; host := "localhost"; headers := [];
     args := []; json := Some data |}.

Definition query_request (query : list (string * string)) : Request :=
  {| url_scheme := "http"; host := "localhost"; headers := [];
     args := query; json := None |}.

(** A store with the one record of the scenario, under the id 1. *)
Definition fedora_store : Store :=
  {| rows := <[1 := fedora_row]> ∅; next_id := 2 |}.

(** ** Whole requests *)

(** The body of the request parses to a mapping that [deserialize]
    accepts. *)
Definition accepted_body (req : Request) : Prop :=
  ∃ m, json req = Some (PDict m) ∧ valid_mapping m.

(** The dicts of a response whose body is a JSON list, what a client
    reads with [response.get_json()]; empty for any other body. *)
Definition response_entries (r : Response) : list (gmap string pyval) :=
  match body r with
  | Json (PList l) =>
      omap (λ v, match v with PDict m => Some m | _ => None end) l
  | _ => []
  end.




(** ** Element identifiers of [features/steps/web_steps.py] *)







(** ** Steps of [features/steps/product_steps.py] *)

(** [value.lower() == "true"], how the steps read a truth value. *)
Definition step_available (value : string) : bool :=
  String.eqb (lower value) "true".

(** How a step ends when it does not run through. *)
Inductive step_exn : Type :=
  | KeyError (key : string)
  | ValueError
  | AttributeError
  | AssertionError.

Definition step_result (A : Type) : Type := step_exn + A.

#[global] Instance step_result_ret : MRet step_result := λ A a, inr a.
#[global] Instance step_result_bind : MBind step_result := λ A B f r,
  match r with
  | inl e => inl e
  | inr a => f a
  end.

(** The attributes of behave's [context] that the steps use; an
    attribute that was never set is [None]. *)
Record Context : Type := mkContext {
  ctx_product : option (gmap string pyval);
  ctx_response : option Response;
  ctx_product_id : option pyval
}.


(** What [requests.post(url, json=data)] puts on the wire for the
    service at [BASE_URL]. *)
Definition requests_json (data : pyval) : Request :=
  {| url_scheme := "http"; host := "localhost:8082";
     headers := [("Content-Type", "application/json")];
     args := []; json := Some data |}.

(** [response.ok]: the status is no client or server error. *)
Definition response_ok (r : Response) : bool :=
  negb ((400 <=? status r) && (status r <? 600)).


Definition with_product (ctx : Context) (product : gmap string pyval) : Context :=
  {| ctx_product := Some product; ctx_response := ctx_response ctx;
     ctx_product_id := ctx_product_id ctx |}.

(** The steps are written over python's [float], which reads a number
    from a string or raises [ValueError]. *)
Section product_steps.
Variable python_float : string → option pyval.





End product_steps.


(** [@when('I press the "Create" button')] *)
Definition step_press_create (ctx : Context) (db : Store) : step_result Context * Store :=
  match ctx_product ctx with
  | None => (inl AttributeError, db)
  | Some product =>
      let (r, db') := serve (create_products (requests_json (PDict product))) db in
      if response_ok r then
        match body r with
        | Json (PDict m) =>
            (inr {| ctx_product := Some product; ctx_response := Some r;
                    ctx_product_id := Some (default PNone (m !! "id")) |}, db')
        | Json _ => (inl AttributeError, db')
        | Text _ => (inl ValueError, db')
        end
      else
        (inr {| ctx_product := Some product; ctx_response := Some r;
                ctx_product_id := ctx_product_id ctx |}, db')
  end.

(** [@then('I should see the message "Success"')] *)
Definition step_see_success (ctx : Context) : step_result unit :=
  match ctx_response ctx with
  | None => inl AttributeError
  | Some r =>
      if bool_decide (status r ∈ [200; 201]) then inr tt else inl AssertionError
  end.





Definition new_context : Context :=
  {| ctx_product := None; ctx_response := None; ctx_product_id := None |}.

(** * Properties *)

(** ** Entity *)

Lemma Category_of_name_name (c : Category) :
  Category_of_name (Category_name c) = Some c.
Proof. destruct c; reflexivity. Qed.

Lemma Category_of_name_Some (s : string) (c : Category) :
  Category_of_name s = Some c → s = Category_name c.
Proof.
  unfold Category_of_name, Category_members. cbn [List.find].
  repeat match goal with
         | |- context [String.eqb ?a s] =>
             destruct (String.eqb_spec a s) as [<-|_]
         end; intros [= <-]; reflexivity.
Qed.

Lemma Category_of_name_None (s : string) :
  Category_of_name s = None ↔ ∀ c, s ≠ Category_name c.
Proof.
  split.
  - intros Hn c ->. rewrite Category_of_name_name in Hn. discriminate.
  - intros Hne. destruct (Category_of_name s) as [c|] eqn:E; [|reflexivity].
    apply Category_of_name_Some in E. destruct (Hne c E).
Qed.

Lemma Category_name_inj (c1 c2 : Category) :
  Category_name c1 = Category_name c2 → c1 = c2.
Proof.
  intros E. pose proof (Category_of_name_name c1) as H1.
  rewrite E, Category_of_name_name in H1. congruence.
Qed.

Lemma required_Some (m : gmap string pyval) k v :
  m !! k = Some v → required m k = Ok v.
Proof. unfold required. intros ->. reflexivity. Qed.

(** On a valid mapping [deserialize] succeeds and the entity carries
    the values of the mapping. *)
Lemma deserialize_valid (self : Product) (m : gmap string pyval) n d p b c :
  m !! "name" = Some n → m !! "description" = Some d →
  m !! "price" = Some p → m !! "available" = Some (PBool b) →
  m !! "category" = Some (PStr (Category_name c)) →
  deserialize self (PDict m)
  = Ok {| id := id self; name := n; description := d; price := p;
          available := b; category := c |}.
Proof.
  intros Hn Hd Hp Ha Hc. unfold deserialize.
  rewrite (required_Some _ _ _ Hn), (required_Some _ _ _ Hd),
    (required_Some _ _ _ Hp), (required_Some _ _ _ Ha),
    (required_Some _ _ _ Hc).
  cbn. rewrite Category_of_name_name. reflexivity.
Qed.

Lemma valid_mapping_fields (m : gmap string pyval) :
  valid_mapping m →
  ∃ n d p b c,
    m !! "name" = Some n ∧ m !! "description" = Some d ∧
    m !! "price" = Some p ∧ m !! "available" = Some (PBool b) ∧
    m !! "category" = Some (PStr (Category_name c)).
Proof.
  intros (Hreq & [b Hb] & [c Hc]).
  destruct (Hreq "name") as [n Hn]; [set_solver|].
  destruct (Hreq "description") as [d Hd]; [set_solver|].
  destruct (Hreq "price") as [p Hp]; [set_solver|].
  by exists n, d, p, b, c.
Qed.

(** Whatever [deserialize] returns was read from a mapping with the
    five keys. *)
Lemma deserialize_Ok_inv (self e : Product) (data : pyval) :
  deserialize self data = Ok e →
  ∃ m, data = PDict m
    ∧ m !! "name" = Some (name e) ∧ m !! "description" = Some (description e)
    ∧ m !! "price" = Some (price e)
    ∧ m !! "available" = Some (PBool (available e))
    ∧ m !! "category" = Some (PStr (Category_name (category e)))
    ∧ id e = id self.
Proof.
  destruct data as [| | | | |m]; try discriminate.
  unfold deserialize, required.
  destruct (m !! "name") as [n|] eqn:Hn; [|discriminate].
  destruct (m !! "description") as [d|] eqn:Hd; [|discriminate].
  destruct (m !! "price") as [p|] eqn:Hp; [|discriminate].
  destruct (m !! "available") as [a|] eqn:Ha; [|discriminate].
  cbn. destruct a as [|b| | | |]; try discriminate.
  cbn. destruct (m !! "category") as [c|] eqn:Hc; [|discriminate].
  cbn. destruct c as [| | |s| |]; try discriminate.
  cbn. destruct (Category_of_name s) as [k|] eqn:Hk; [|discriminate].
  apply Category_of_name_Some in Hk as ->.
  cbn. intros [= <-]. exists m. cbn. by rewrite Hn, Hd, Hp.
Qed.

Lemma deserialize_Ok_valid (self e : Product) (m : gmap string pyval) :
  deserialize self (PDict m) = Ok e → valid_mapping m.
Proof.
  intros H. apply deserialize_Ok_inv in H as (m' & [= <-] & Hn & Hd & Hp & Ha & Hc & _).
  split; [|eauto].
  intros k Hk. unfold required_keys in Hk.
  repeat (apply elem_of_cons in Hk as [->|Hk]; [eauto|]).
  by apply elem_of_nil in Hk.
Qed.

(** The valid mappings are the ones [deserialize] accepts. *)
Lemma valid_mapping_iff_accepted (self : Product) (m : gmap string pyval) :
  valid_mapping m ↔ ∃ e, deserialize self (PDict m) = Ok e.
Proof.
  split.
  - intros (n & d & p & b & c & Hn & Hd & Hp & Hb & Hc)%valid_mapping_fields.
    eexists. by apply deserialize_valid.
  - intros [e He]. by eapply deserialize_Ok_valid.
Qed.

(** [deserialize] raises nothing but [ValidationError]. *)
Lemma deserialize_raises (self : Product) (data : pyval) (e : exn) :
  deserialize self data = Raise e → ∃ msg, e = ValidationError msg.
Proof.
  destruct data as [| | | | |m]; try (intros [= <-]; eauto; fail).
  unfold deserialize, required.
  destruct (m !! "name"); [|intros [= <-]; eauto].
  destruct (m !! "description"); [|intros [= <-]; eauto].
  destruct (m !! "price"); [|intros [= <-]; eauto].
  destruct (m !! "available") as [a|]; [|intros [= <-]; eauto].
  cbn. destruct a as [|b| | | |]; try (intros [= <-]; eauto; fail).
  cbn. destruct (m !! "category") as [c|]; [|intros [= <-]; eauto].
  cbn. destruct c as [| | |s| |]; try (intros [= <-]; eauto; fail).
  cbn. destruct (Category_of_name s); [discriminate|intros [= <-]; eauto].
Qed.

(** [deserialize] reads nothing but the five data keys. *)
Lemma deserialize_ignores (self : Product) (m : gmap string pyval) k v :
  k ∉ required_keys →
  deserialize self (PDict (<[k := v]> m)) = deserialize self (PDict m)
  ∧ deserialize self (PDict (delete k m)) = deserialize self (PDict m).
Proof.
  intros Hk. unfold deserialize, required.
  assert (∀ j, j ∈ required_keys → k ≠ j) as Hne by (intros j Hj ->; done).
  rewrite !lookup_insert_ne, !lookup_delete_ne by (apply Hne; set_solver).
  done.
Qed.

Lemma serialize_lookup (p : Product) :
  serialize p !! "name" = Some (name p)
  ∧ serialize p !! "description" = Some (description p)
  ∧ serialize p !! "price" = Some (price p)
  ∧ serialize p !! "available" = Some (PBool (available p))
  ∧ serialize p !! "category" = Some (PStr (Category_name (category p)))
  ∧ serialize p !! "id"
    = Some (match id p with Some k => PNum k 0 | None => PNone end).
Proof. unfold serialize. repeat split; by simplify_map_eq. Qed.

(** Reading a serialized entity back gives the entity, under the id of
    the receiver. *)
Lemma deserialize_serialize (self p : Product) :
  deserialize self (PDict (serialize p)) = Ok (set_id (id self) p).
Proof.
  destruct (serialize_lookup p) as (Hn & Hd & Hp & Ha & Hc & _).
  rewrite (deserialize_valid self _ _ _ _ _ _ Hn Hd Hp Ha Hc).
  reflexivity.
Qed.

Lemma deserialize_Ok_not_bad (self e : Product) (data : pyval) :
  deserialize self data = Ok e → ¬ bad_input data.
Proof.
  intros H. apply deserialize_Ok_inv in H
    as (m & -> & Hn & Hd & Hp & Ha & Hc & _).
  cbn. intros [(k & Hk & Hnone) | [(v & Hv & Hb) | (v & Hv & Hcat)]].
  - unfold required_keys in Hk.
    repeat (apply elem_of_cons in Hk as [->|Hk]; [congruence|]).
    by apply elem_of_nil in Hk.
  - assert (v = PBool (available e)) as -> by congruence. by eapply Hb.
  - assert (v = PStr (Category_name (category e))) as -> by congruence.
    by eapply Hcat.
Qed.

(** Every input is either bad or accepted. *)
Lemma deserialize_cases (self : Product) (data : pyval) :
  bad_input data ∨ ∃ e, deserialize self data = Ok e.
Proof.
  destruct data as [| | | | |m]; try (left; exact I).
  destruct (m !! "name") as [n|] eqn:Hn;
    [|left; left; exists "name"; split; [set_solver|done]].
  destruct (m !! "description") as [d|] eqn:Hd;
    [|left; left; exists "description"; split; [set_solver|done]].
  destruct (m !! "price") as [p|] eqn:Hp;
    [|left; left; exists "price"; split; [set_solver|done]].
  destruct (m !! "available") as [a|] eqn:Ha;
    [|left; left; exists "available"; split; [set_solver|done]].
  destruct (m !! "category") as [c|] eqn:Hc;
    [|left; left; exists "category"; split; [set_solver|done]].
  destruct a as [|b| | | |];
    try (left; right; left; eexists; split; [exact Ha|discriminate]).
  destruct c as [| | |s| |];
    try (left; right; right; eexists; split; [exact Hc|discriminate]).
  destruct (Category_of_name s) as [k|] eqn:Hk.
  - apply Category_of_name_Some in Hk as ->. right. eexists.
    by apply deserialize_valid.
  - left; right; right. exists (PStr s). split; [exact Hc|].
    intros k [= ->]. rewrite Category_of_name_name in Hk. discriminate.
Qed.

(** C3. [deserialize] fails with [ValidationError] exactly on the bad
    inputs: the input is not a mapping, a required key is missing,
    [available] is present and not a boolean (the string "yes" for
    one), or [category] is present and names no member.  Every other
    input is accepted, and a missing [id] changes nothing: dropping
    the key [id] from a mapping leaves the outcome as it was. *)
Theorem deserialize_fails_exactly_on_bad_input
    (self : Product) (data : pyval) (m : gmap string pyval) :
  ((∃ msg, deserialize self data = Raise (ValidationError msg)) ↔ bad_input data)
  ∧ ((∃ e, deserialize self data = Ok e) ↔ ¬ bad_input data)
  ∧ (∃ msg, deserialize self (PDict (<["available" := PStr "yes"]> m))
            = Raise (ValidationError msg))
  ∧ deserialize self (PDict (delete "id" m)) = deserialize self (PDict m).
Proof.
  assert (∀ x, bad_input x → ∃ msg, deserialize self x = Raise (ValidationError msg))
    as Hbad.
  { intros x Hx. destruct (deserialize self x) as [e|e] eqn:E.
    - apply deserialize_raises in E as [msg ->]. by exists msg.
    - by apply deserialize_Ok_not_bad in E. }
  split; [|split; [|split]].
  - split; [|apply Hbad].
    intros [msg Hmsg]. destruct (deserialize_cases self data) as [?|[e He]]; [done|].
    rewrite He in Hmsg. discriminate.
  - split.
    + intros [e He]. by eapply deserialize_Ok_not_bad.
    + intros Hnb. by destruct (deserialize_cases self data).
  - apply Hbad. cbn. right; left. exists (PStr "yes").
    split; [by rewrite lookup_insert_eq|discriminate].
  - apply deserialize_ignores with (v := PNone).
    unfold required_keys. intros Hk.
    repeat (apply elem_of_cons in Hk as [?|Hk]; [discriminate|]).
    by apply elem_of_nil in Hk.
Qed.

(** C4. Round trip: for a valid field mapping [M], serializing
    [entity_from M] and deserializing the result into a new entity
    gives an entity equal to the original, on the five defined fields
    and as a whole. *)
Theorem serialize_deserialize_round_trip (M : gmap string pyval) :
  valid_mapping M →
  ∃ e, entity_from M = Ok e
    ∧ ∃ e', entity_from (serialize e) = Ok e' ∧ same_fields e' e ∧ e' = e.
Proof.
  intros HM. unfold entity_from.
  destruct (valid_mapping_fields M HM) as (n & d & p & b & c & Hn & Hd & Hp & Hb & Hc).
  rewrite (deserialize_valid _ _ _ _ _ _ _ Hn Hd Hp Hb Hc).
  eexists. split; [reflexivity|].
  rewrite deserialize_serialize. eexists.
  split; [reflexivity|]. split; [repeat split|reflexivity].
Qed.

(** ** Query layer *)

Lemma elem_of_materialize (t : gmap Z Row) (p : Product) :
  p ∈ materialize t ↔ ∃ k r, t !! k = Some r ∧ p = of_row k r.
Proof.
  unfold materialize. rewrite list_elem_of_fmap. split.
  - intros ([k r] & -> & Hin). apply elem_of_map_to_list in Hin. eauto.
  - intros (k & r & Hkr & ->). exists (k, r).
    split; [reflexivity|]. by apply elem_of_map_to_list.
Qed.

Lemma of_row_inj k1 r1 k2 r2 :
  of_row k1 r1 = of_row k2 r2 → k1 = k2 ∧ r1 = r2.
Proof. destruct r1, r2. unfold of_row; cbn. intros [=]. by subst. Qed.

Lemma NoDup_materialize (t : gmap Z Row) : NoDup (materialize t).
Proof.
  unfold materialize. apply NoDup_fmap_2_strong; [|apply NoDup_map_to_list].
  intros [k1 r1] [k2 r2] _ _ E. cbn in E.
  apply of_row_inj in E as [-> ->]. reflexivity.
Qed.

(** A selection on a column is the collection filtered on the field. *)
Lemma materialize_filter
    (P : Z * Row → Prop) `{!∀ kr, Decision (P kr)}
    (Q : Product → Prop) `{!∀ p, Decision (Q p)} (t : gmap Z Row) :
  (∀ k r, P (k, r) ↔ Q (of_row k r)) →
  materialize (filter P t) ≡ₚ filter Q (materialize t).
Proof.
  intros HPQ. apply NoDup_Permutation.
  - apply NoDup_materialize.
  - apply NoDup_filter, NoDup_materialize.
  - intros p. rewrite list_elem_of_filter, !elem_of_materialize. split.
    + intros (k & r & Hkr & ->).
      apply map_lookup_filter_Some in Hkr as [Hkr HP].
      split; [by apply HPQ|eauto].
    + intros [HQ (k & r & Hkr & ->)]. exists k, r. split; [|reflexivity].
      apply map_lookup_filter_Some. split; [done|by apply HPQ].
Qed.

(** C5. [find_by_name n] is exactly the part of [all()] whose name is
    [n], [find_by_category] of a member exactly the part whose category
    is that member, and [find_by_availability a] exactly the part whose
    [available] is [a]: the same records, each once. *)
Theorem find_by_is_exact_subset_of_all
    (db : Store) (n : string) (c : Category) (a : bool) :
  (Product_find_by_name n db
     ≡ₚ filter (λ p, name p = PStr n) (Product_all db)
   ∧ ∀ p, p ∈ Product_find_by_name n db
          ↔ p ∈ Product_all db ∧ name p = PStr n)
  ∧ (Product_find_by_category (Category_name c) db
       ≡ₚ filter (λ p, category p = c) (Product_all db)
     ∧ ∀ p, p ∈ Product_find_by_category (Category_name c) db
            ↔ p ∈ Product_all db ∧ category p = c)
  ∧ (Product_find_by_availability a db
       ≡ₚ filter (λ p, available p = a) (Product_all db)
     ∧ ∀ p, p ∈ Product_find_by_availability a db
            ↔ p ∈ Product_all db ∧ available p = a).
Proof.
  assert (∀ (l l' : list Product) (Q : Product → Prop) `{!∀ p, Decision (Q p)},
    l ≡ₚ filter Q l' → l ≡ₚ filter Q l' ∧ ∀ p, p ∈ l ↔ p ∈ l' ∧ Q p) as Hmem.
  { intros l l' Q ? Hl. split; [exact Hl|]. intros p.
    rewrite Hl, list_elem_of_filter. tauto. }
  unfold Product_find_by_name, Product_find_by_category,
    Product_find_by_availability, Product_all.
  split; [|split]; apply Hmem, materialize_filter; intros k r; cbn.
  - reflexivity.
  - split; [apply Category_name_inj|by intros ->].
  - reflexivity.
Qed.

(** ** Running the handlers *)

Ltac run_M :=
  unfold mbind, mret, M_bind, M_ret, gets, lift, abort, throw, Raise, Ok; cbn beta iota.

Lemma check_content_type_run (req : Request) (ct : string) (db : Store) :
  check_content_type req ct db =
  if bool_decide (headers_get (headers req) "Content-Type" = Some ct)
  then (Ok tt, db)
  else (Raise (Abort HTTP_415_UNSUPPORTED_MEDIA_TYPE ("Content-Type must be " ++ ct)), db).
Proof.
  unfold check_content_type.
  destruct (headers_get (headers req) "Content-Type") as [v|].
  - destruct (String.eqb_spec v ct) as [->|Hne]; cbn.
    + by rewrite bool_decide_eq_true_2.
    + rewrite bool_decide_eq_false_2; [done|congruence].
  - by rewrite bool_decide_eq_false_2.
Qed.

Lemma Product_find_Some (k : Z) (db : Store) (p : Product) :
  Product_find k db = Some p ↔ ∃ r, rows db !! k = Some r ∧ p = of_row k r.
Proof.
  unfold Product_find. destruct (rows db !! k) as [r|]; cbn.
  - split; [intros [= <-]; eauto|intros (r' & [= <-] & ->); done].
  - split; [done|intros (r' & ? & _); done].
Qed.

Lemma Product_find_None (k : Z) (db : Store) :
  Product_find k db = None ↔ rows db !! k = None.
Proof. unfold Product_find. destruct (rows db !! k); cbn; split; done. Qed.

Lemma Product_find_id (k : Z) (db : Store) (p : Product) :
  Product_find k db = Some p → id p = Some k.
Proof. intros (r & _ & ->)%Product_find_Some. reflexivity. Qed.

(** The generator never hands out a stored id. *)
Lemma wf_next_id_fresh (db : Store) : wf db → Product_find (next_id db) db = None.
Proof.
  intros [_ Hwf]. apply Product_find_None.
  destruct (rows db !! next_id db) eqn:E; [|done].
  destruct (Hwf (next_id db)); [by eexists|lia].
Qed.


Lemma create_products_run (req : Request) (db : Store) :
  create_products req db =
  if bool_decide (json_content_type req) then
    match json req with
    | None => (Raise (Abort HTTP_400_BAD_REQUEST "Failed to decode JSON object"), db)
    | Some data =>
        if truthy data then
          match deserialize Product_new data with
          | inl e => (inl e, db)
          | inr p =>
              let k := next_id db in
              (Ok (entity_response HTTP_201_CREATED (set_id (Some k) p)
                     [("Location", location_of req k)]),
               insert_row k p db (k + 1))
          end
        else (Raise (Abort HTTP_400_BAD_REQUEST "Invalid JSON data"), db)
    end
  else (Raise (Abort HTTP_415_UNSUPPORTED_MEDIA_TYPE
                 "Content-Type must be application/json"), db).
Proof.
  unfold create_products, json_content_type. run_M.
  rewrite check_content_type_run. case_bool_decide; [|reflexivity].
  unfold get_json. destruct (json req) as [data|]; [|reflexivity]. run_M.
  destruct (truthy data); [|reflexivity]. cbn.
  destruct (deserialize Product_new data) as [e|p]; reflexivity.
Qed.

Lemma get_products_run (k : Z) (db : Store) :
  get_products k db =
  match Product_find k db with
  | Some p => (Ok (entity_response HTTP_200_OK p []), db)
  | None => (Raise (Abort HTTP_404_NOT_FOUND (not_found_message k)), db)
  end.
Proof.
  unfold get_products. run_M. destruct (Product_find k db); reflexivity.
Qed.

Lemma update_products_with_run
    (deser : Product → pyval → result Product)
    (req : Request) (k : Z) (db : Store) :
  update_products_with deser req k db =
  if bool_decide (json_content_type req) then
    match Product_find k db with
    | None => (Raise (Abort HTTP_404_NOT_FOUND (not_found_message k)), db)
    | Some product =>
        match json req with
        | None => (Raise (Abort HTTP_400_BAD_REQUEST "Failed to decode JSON object"), db)
        | Some data =>
            if truthy data then
              match deser product data with
              | inl e => (inl e, db)
              | inr p =>
                  (Ok (entity_response HTTP_200_OK (set_id (Some k) p) []),
                   insert_row k p db (next_id db))
              end
            else (Raise (Abort HTTP_400_BAD_REQUEST "Invalid JSON data"), db)
        end
    end
  else (Raise (Abort HTTP_415_UNSUPPORTED_MEDIA_TYPE
                 "Content-Type must be application/json"), db).
Proof.
  unfold update_products_with, json_content_type. run_M.
  rewrite check_content_type_run. case_bool_decide; [|reflexivity].
  destruct (Product_find k db) as [product|] eqn:Hfind; [|reflexivity].
  unfold get_json. destruct (json req) as [data|]; [|reflexivity]. run_M.
  destruct (truthy data); [|reflexivity]. cbn.
  destruct (deser product data) as [e|p]; [reflexivity|].
  unfold Product_update. cbn.
  apply Product_find_Some in Hfind as (r & -> & _). reflexivity.
Qed.

Lemma update_products_run (req : Request) (k : Z) (db : Store) :
  update_products req k db =
  if bool_decide (json_content_type req) then
    match Product_find k db with
    | None => (Raise (Abort HTTP_404_NOT_FOUND (not_found_message k)), db)
    | Some product =>
        match json req with
        | None => (Raise (Abort HTTP_400_BAD_REQUEST "Failed to decode JSON object"), db)
        | Some data =>
            if truthy data then
              match deserialize product data with
              | inl e => (inl e, db)
              | inr p =>
                  (Ok (entity_response HTTP_200_OK (set_id (Some k) p) []),
                   insert_row k p db (next_id db))
              end
            else (Raise (Abort HTTP_400_BAD_REQUEST "Invalid JSON data"), db)
        end
    end
  else (Raise (Abort HTTP_415_UNSUPPORTED_MEDIA_TYPE
                 "Content-Type must be application/json"), db).
Proof. apply update_products_with_run. Qed.

Lemma delete_products_run (k : Z) (db : Store) :
  delete_products k db =
  (Ok no_content,
   match Product_find k db with
   | Some _ => {| rows := delete k (rows db); next_id := next_id db |}
   | None => db
   end).
Proof.
  unfold delete_products. run_M.
  destruct (Product_find k db) as [p|] eqn:Hfind; [|reflexivity].
  unfold Product_delete. rewrite (Product_find_id _ _ _ Hfind). reflexivity.
Qed.

Lemma list_products_run (req : Request) (db : Store) :
  list_products req db = (Ok (list_response (selection_by_value req db)), db).
Proof.
  unfold list_products, selection_by_value, given. run_M.
  destruct (args_get (args req) "name") as [[|c n]|];
    destruct (args_get (args req) "category") as [[|c' k]|];
    destruct (args_get (args req) "available") as [a|]; reflexivity.
Qed.

(** ** Well-formed stores stay well-formed *)








Lemma valid_mapping_truthy (m : gmap string pyval) :
  valid_mapping m → truthy (PDict m) = true.
Proof.
  intros (_ & [b Hb] & _). cbn. apply negb_true_iff, Nat.eqb_neq.
  intros Hsz. apply map_size_empty_iff in Hsz. subst.
  by rewrite lookup_empty in Hb.
Qed.

Lemma valid_mapping_insert_id (m : gmap string pyval) (v : pyval) :
  valid_mapping m → valid_mapping (<["id" := v]> m).
Proof.
  intros (Hreq & [b Hb] & [c Hc]). split; [|split].
  - intros k Hk. rewrite lookup_insert_ne; [by apply Hreq|].
    intros <-. unfold required_keys in Hk.
    repeat (apply elem_of_cons in Hk as [?|Hk]; [discriminate|]).
    by apply elem_of_nil in Hk.
  - exists b. by rewrite lookup_insert_ne.
  - exists c. by rewrite lookup_insert_ne.
Qed.

Lemma deserialize_insert_id (self : Product) (m : gmap string pyval) (v : pyval) :
  deserialize self (PDict (<["id" := v]> m)) = deserialize self (PDict m).
Proof.
  apply deserialize_ignores. unfold required_keys. intros Hk.
  repeat (apply elem_of_cons in Hk as [?|Hk]; [discriminate|]).
  by apply elem_of_nil in Hk.
Qed.

Lemma valid_mapping_intro (m : gmap string pyval) n d p b c :
  m !! "name" = Some n → m !! "description" = Some d →
  m !! "price" = Some p → m !! "available" = Some (PBool b) →
  m !! "category" = Some (PStr (Category_name c)) →
  valid_mapping m.
Proof.
  intros Hn Hd Hp Hb Hc. split; [|eauto].
  intros k Hk. unfold required_keys in Hk.
  repeat (apply elem_of_cons in Hk as [->|Hk]; [eauto|]).
  by apply elem_of_nil in Hk.
Qed.

Lemma fedora_valid : valid_mapping fedora.
Proof.
  by apply (valid_mapping_intro fedora (PStr "Fedora") (PStr "A red hat")
              (PNum 1250 (-2)) true CLOTHS).
Qed.

Lemma wf_fedora_store : wf fedora_store.
Proof.
  split; [done|]. intros k [r Hr]. cbn in Hr.
  apply lookup_insert_Some in Hr as [[<- _]|[_ Hr]]; [done|].
  by rewrite lookup_empty in Hr.
Qed.

(** ** Creation *)

(** C1. A POST whose Content-Type is [application/json] and whose body
    is a valid field mapping creates the product: the answer is 201
    with a [Location] header for the new record and the serialized
    entity, whose id is the one the store hands out; the record is
    stored under that id, and an [id] in the body has no part in the
    outcome.  On a well-formed store the id is positive and was not in
    use before. *)
Theorem create_products_created
    (req : Request) (db : Store) (m : gmap string pyval) :
  json_content_type req → json req = Some (PDict m) → valid_mapping m →
  ∃ e, entity_from m = Ok e
    ∧ serve (create_products req) db
      = (entity_response HTTP_201_CREATED (set_id (Some (next_id db)) e)
           [("Location", location_of req (next_id db))],
         insert_row (next_id db) e db (next_id db + 1))
    ∧ serialize (set_id (Some (next_id db)) e) !! "id" = Some (PNum (next_id db) 0)
    ∧ Product_find (next_id db) (insert_row (next_id db) e db (next_id db + 1))
      = Some (set_id (Some (next_id db)) e)
    ∧ (∀ v, serve (create_products (with_json req (PDict (<["id" := v]> m)))) db
            = serve (create_products req) db)
    ∧ (wf db → 0 < next_id db ∧ Product_find (next_id db) db = None).
Proof.
  intros Hct Hjson Hm. unfold entity_from.
  destruct (valid_mapping_fields m Hm)
    as (n & d & p & b & c & Hn & Hd & Hp & Hb & Hc).
  pose proof (deserialize_valid Product_new m n d p b c Hn Hd Hp Hb Hc) as He.
  eexists. split; [exact He|].
  assert (∀ m', valid_mapping m' →
            deserialize Product_new (PDict m') = deserialize Product_new (PDict m) →
            ∀ req', json_content_type req' → json req' = Some (PDict m') →
            url_scheme req' = url_scheme req → host req' = host req →
            serve (create_products req') db
            = (entity_response HTTP_201_CREATED
                 (set_id (Some (next_id db))
                    {| id := id Product_new; name := n; description := d;
                       price := p; available := b; category := c |})
                 [("Location", location_of req (next_id db))],
               insert_row (next_id db)
                 {| id := id Product_new; name := n; description := d;
                    price := p; available := b; category := c |}
                 db (next_id db + 1))) as Hrun.
  { intros m' Hm' Hsame req' Hct' Hjson' Hs Hh. unfold serve.
    rewrite create_products_run, bool_decide_eq_true_2, Hjson' by done.
    rewrite (valid_mapping_truthy m' Hm'), Hsame, He. cbn.
    unfold location_of. by rewrite Hs, Hh. }
  split; [by apply (Hrun m Hm eq_refl req)|].
  split; [by apply serialize_lookup|].
  split; [|split].
  - unfold Product_find, insert_row. cbn. by rewrite lookup_insert_eq.
  - intros v. rewrite (Hrun m Hm eq_refl req) by done.
    apply (Hrun (<["id" := v]> m)); try done.
    + by apply valid_mapping_insert_id.
    + apply deserialize_insert_id.
  - intros Hwf. split; [exact (proj1 Hwf)|by apply wf_next_id_fresh].
Qed.

Lemma create_products_created_witness :
  json_content_type (json_request (PDict fedora))
  ∧ valid_mapping fedora
  ∧ ∃ e, entity_from fedora = Ok e
      ∧ serve (create_products (json_request (PDict fedora))) empty_store
        = (entity_response HTTP_201_CREATED (set_id (Some 1) e)
             [("Location", "http://localhost/api/products/1")],
           insert_row 1 e empty_store 2).
Proof.
  split; [reflexivity|]. split; [exact fedora_valid|].
  destruct (create_products_created (json_request (PDict fedora)) empty_store
              fedora eq_refl eq_refl fedora_valid)
    as (e & He & Hrun & _).
  exists e. split; [exact He|exact Hrun].
Defined.

Lemma serialize_deserialize_round_trip_witness :
  valid_mapping fedora
  ∧ ∃ e, entity_from fedora = Ok e
      ∧ ∃ e', entity_from (serialize e) = Ok e' ∧ same_fields e' e ∧ e' = e.
Proof.
  split; [exact fedora_valid|].
  exact (serialize_deserialize_round_trip fedora fedora_valid).
Defined.

(** ** Update *)

(** An update of a stored id either leaves the store as it is or writes
    one record under that id, whatever [deserialize] made of the id of
    the entity. *)
Lemma update_products_with_store
    (deser : Product → pyval → result Product)
    (req : Request) (db : Store) (k : Z) (p : Product) :
  Product_find k db = Some p →
  (serve (update_products_with deser req k) db).2 = db
  ∨ ∃ e, (serve (update_products_with deser req k) db).2
         = insert_row k e db (next_id db).
Proof.
  intros Hfind. unfold serve. rewrite update_products_with_run.
  case_bool_decide; [|by left]. rewrite Hfind.
  destruct (json req) as [data|]; [|by left].
  destruct (truthy data); [|by left].
  destruct (deser p data) as [err|e]; [by left|].
  right. by exists e.
Qed.

(** C6. A PUT on an existing id leaves a record under that id, and the
    id of that record is the id of the path, whatever the request and
    whatever [deserialize] did to the id of the entity: the path id is
    set on the entity before it is persisted, so the record is written
    under the path id, no id is added to or taken from the collection,
    every other record is as it was and the generator is not advanced.
    When the request is accepted the record under the path id carries
    the fields of the body, the answer shows the path id, and an [id]
    in the body has no part in the outcome. *)
Theorem update_products_keeps_id
    (req : Request) (db : Store) (k : Z) (p : Product) :
  Product_find k db = Some p →
  (∀ deser,
     (∃ p', Product_find k (serve (update_products_with deser req k) db).2 = Some p'
            ∧ id p' = Some k)
     ∧ dom (rows (serve (update_products_with deser req k) db).2) = dom (rows db)
     ∧ (∀ j, j ≠ k →
          Product_find j (serve (update_products_with deser req k) db).2
          = Product_find j db)
     ∧ next_id (serve (update_products_with deser req k) db).2 = next_id db)
  ∧ ∀ m, json_content_type req → json req = Some (PDict m) → valid_mapping m →
      ∃ e, deserialize p (PDict m) = Ok e
        ∧ id e = Some k
        ∧ serve (update_products req k) db
          = (entity_response HTTP_200_OK e [], insert_row k e db (next_id db))
        ∧ serialize e !! "id" = Some (PNum k 0)
        ∧ Product_find k (insert_row k e db (next_id db)) = Some e
        ∧ ∀ v, serve (update_products (with_json req (PDict (<["id" := v]> m))) k) db
               = serve (update_products req k) db.
Proof.
  intros Hfind. pose proof (Product_find_id _ _ _ Hfind) as Hid.
  pose proof Hfind as (r & Hr & _)%Product_find_Some.
  assert (∀ e, dom (rows (insert_row k e db (next_id db))) = dom (rows db)) as Hdom.
  { intros e. cbn. rewrite dom_insert_L.
    apply subseteq_union_1_L, singleton_subseteq_l, elem_of_dom. by eexists. }
  assert (∀ e, Product_find k (insert_row k e db (next_id db))
               = Some (set_id (Some k) e)) as Hstored.
  { intros e. unfold Product_find, insert_row. cbn. by rewrite lookup_insert_eq. }
  assert (∀ e j, j ≠ k → Product_find j (insert_row k e db (next_id db))
                          = Product_find j db) as Hother.
  { intros e j Hj. unfold Product_find, insert_row. cbn.
    by rewrite lookup_insert_ne. }
  split.
  - intros deser.
    destruct (update_products_with_store deser req db k p Hfind) as [->|[e ->]].
    + split; [by eauto|]. by repeat split.
    + rewrite Hstored. split; [by eauto|]. split; [apply Hdom|].
      split; [apply Hother|reflexivity].
  - intros m Hct Hjson Hm.
    destruct (valid_mapping_fields m Hm)
      as (n & d & pr & b & c & Hn & Hd & Hp & Hb & Hc).
    pose proof (deserialize_valid p m n d pr b c Hn Hd Hp Hb Hc) as He.
    rewrite Hid in He.
    set (e := {| id := Some k; name := n; description := d; price := pr;
                 available := b; category := c |}) in *.
    assert (∀ m', valid_mapping m' →
              deserialize p (PDict m') = deserialize p (PDict m) →
              ∀ req', json_content_type req' → json req' = Some (PDict m') →
              serve (update_products req' k) db
              = (entity_response HTTP_200_OK e [], insert_row k e db (next_id db)))
      as Hrun.
    { intros m' Hm' Hsame req' Hct' Hjson'. unfold serve.
      rewrite update_products_run, bool_decide_eq_true_2, Hfind, Hjson' by done.
      by rewrite (valid_mapping_truthy m' Hm'), Hsame, He. }
    exists e. split; [exact He|]. split; [reflexivity|].
    split; [by apply (Hrun m Hm eq_refl req)|].
    split; [by apply serialize_lookup|].
    split; [by rewrite Hstored|].
    intros v. rewrite (Hrun m Hm eq_refl req) by done.
    apply (Hrun (<["id" := v]> m)); try done.
    + by apply valid_mapping_insert_id.
    + apply deserialize_insert_id.
Qed.

Lemma update_products_keeps_id_witness :
  Product_find 1 fedora_store = Some (of_row 1 fedora_row)
  ∧ ∃ e, deserialize (of_row 1 fedora_row) (PDict fedora) = Ok e
      ∧ id e = Some 1
      ∧ serve (update_products (json_request (PDict fedora)) 1) fedora_store
        = (entity_response HTTP_200_OK e [], insert_row 1 e fedora_store 2).
Proof.
  split; [reflexivity|].
  destruct (proj2 (update_products_keeps_id (json_request (PDict fedora))
                     fedora_store 1 (of_row 1 fedora_row) eq_refl)
              fedora eq_refl eq_refl fedora_valid)
    as (e & He & Hid & Hrun & _).
  exists e. split; [exact He|]. split; [exact Hid|exact Hrun].
Defined.

(** ** Deletion *)

(** C7. DELETE answers 204 whether or not the id has a record.  After
    it the id has no record, the other records are as they were, and a
    second DELETE of the same id answers 204 again and leaves the
    store as the first one left it; with no record to begin with the
    first DELETE already leaves the store as it was. *)
Theorem delete_products_idempotent (db : Store) (k : Z) :
  (serve (delete_products k) db).1 = no_content
  ∧ status (serve (delete_products k) db).1 = HTTP_204_NO_CONTENT
  ∧ Product_find k (serve (delete_products k) db).2 = None
  ∧ (∀ j, j ≠ k →
       Product_find j (serve (delete_products k) db).2 = Product_find j db)
  ∧ serve (delete_products k) (serve (delete_products k) db).2
    = (no_content, (serve (delete_products k) db).2)
  ∧ (Product_find k db = None → serve (delete_products k) db = (no_content, db)).
Proof.
  assert (∀ s, serve (delete_products k) s
               = (no_content,
                  match Product_find k s with
                  | Some _ => {| rows := delete k (rows s); next_id := next_id s |}
                  | None => s
                  end)) as Hrun.
  { intros s. unfold serve. by rewrite delete_products_run. }
  assert (Product_find k (serve (delete_products k) db).2 = None) as Hgone.
  { rewrite Hrun. cbn [snd].
    destruct (Product_find k db) eqn:Hfind; [|exact Hfind].
    apply Product_find_None. cbn. apply lookup_delete_eq. }
  split; [by rewrite Hrun|]. split; [by rewrite Hrun|].
  split; [exact Hgone|]. split; [|split].
  - intros j Hj. rewrite Hrun. cbn [snd].
    destruct (Product_find k db); [|reflexivity].
    unfold Product_find. cbn. by rewrite lookup_delete_ne.
  - rewrite (Hrun (serve (delete_products k) db).2). by rewrite Hgone.
  - intros Hnone. by rewrite Hrun, Hnone.
Qed.

(** ** Absent records *)

(** C8, as amended. For an id without a record GET answers 404, and
    a PUT whose Content-Type is [application/json] answers 404 whatever
    its body, both leaving the store as it was; a PUT with another or
    no Content-Type is answered 415 before the record is looked up. *)
Theorem absent_id_not_found (req : Request) (db : Store) (k : Z) :
  Product_find k db = None →
  serve (get_products k) db = (not_found k, db)
  ∧ (json_content_type req → serve (update_products req k) db = (not_found k, db))
  ∧ (¬ json_content_type req →
       serve (update_products req k) db = (unsupported_media_type, db)).
Proof.
  intros Hnone. split; [|split].
  - unfold serve. by rewrite get_products_run, Hnone.
  - intros Hct. unfold serve.
    by rewrite update_products_run, bool_decide_eq_true_2, Hnone.
  - intros Hct. unfold serve.
    by rewrite update_products_run, bool_decide_eq_false_2.
Qed.

Lemma absent_id_not_found_witness :
  Product_find 5 fedora_store = None
  ∧ serve (get_products 5) fedora_store = (not_found 5, fedora_store)
  ∧ serve (update_products (json_request (PDict fedora)) 5) fedora_store
    = (not_found 5, fedora_store).
Proof.
  split; [reflexivity|].
  destruct (absent_id_not_found (json_request (PDict fedora)) fedora_store 5 eq_refl)
    as (Hget & Hput & _).
  split; [exact Hget|exact (Hput eq_refl)].
Defined.

(** C8, as stated, fails: the id 1 has no record in the empty store,
    and a PUT on it that carries no Content-Type header is answered
    415, not 404. *)
Lemma put_absent_id_without_content_type :
  Product_find 1 empty_store = None
  ∧ status (serve (update_products (bare_request (PDict fedora)) 1) empty_store).1
    = HTTP_415_UNSUPPORTED_MEDIA_TYPE
  ∧ status (serve (update_products (bare_request (PDict fedora)) 1) empty_store).1
    ≠ HTTP_404_NOT_FOUND.
Proof. split; [reflexivity|]. split; [reflexivity|discriminate]. Qed.

(** ** Content type *)

Lemma create_products_status (req : Request) (db : Store) :
  json_content_type req →
  status (serve (create_products req) db).1 = HTTP_201_CREATED
  ∨ status (serve (create_products req) db).1 = HTTP_400_BAD_REQUEST.
Proof.
  intros Hct. unfold serve.
  rewrite create_products_run, bool_decide_eq_true_2 by done.
  destruct (json req) as [data|]; [|by right].
  destruct (truthy data); [|by right].
  destruct (deserialize Product_new data) as [err|e] eqn:E; [|by left].
  apply deserialize_raises in E as [msg ->]. by right.
Qed.

Lemma update_products_status (req : Request) (k : Z) (db : Store) :
  json_content_type req →
  status (serve (update_products req k) db).1 = HTTP_200_OK
  ∨ status (serve (update_products req k) db).1 = HTTP_400_BAD_REQUEST
  ∨ status (serve (update_products req k) db).1 = HTTP_404_NOT_FOUND.
Proof.
  intros Hct. unfold serve.
  rewrite update_products_run, bool_decide_eq_true_2 by done.
  destruct (Product_find k db) as [p|]; [|by right; right].
  destruct (json req) as [data|]; [|by right; left].
  destruct (truthy data); [|by right; left].
  destruct (deserialize p data) as [err|e] eqn:E; [|by left].
  apply deserialize_raises in E as [msg ->]. by right; left.
Qed.

(** C10. POST and PUT compare the Content-Type header with
    [application/json] letter for letter.  A request without the
    header, or with any other value, [application/json; charset=utf-8]
    among them, is answered 415 and nothing else happens: the answer
    is the same for every body and the store is as it was.  A request
    with exactly that value is never answered 415. *)
Theorem content_type_checked_exactly (req : Request) (db : Store) (k : Z) :
  (¬ json_content_type req ↔
     serve (create_products req) db = (unsupported_media_type, db))
  ∧ (¬ json_content_type req ↔
       serve (update_products req k) db = (unsupported_media_type, db))
  ∧ (json_content_type req ↔
       status (serve (create_products req) db).1 ≠ HTTP_415_UNSUPPORTED_MEDIA_TYPE)
  ∧ (json_content_type req ↔
       status (serve (update_products req k) db).1 ≠ HTTP_415_UNSUPPORTED_MEDIA_TYPE)
  ∧ (headers_get (headers req) "Content-Type" = None → ¬ json_content_type req)
  ∧ (headers_get (headers req) "Content-Type"
     = Some "application/json; charset=utf-8" → ¬ json_content_type req)
  ∧ (∀ data, serve (create_products (charset_request data)) db
             = (unsupported_media_type, db)
           ∧ serve (update_products (charset_request data) k) db
             = (unsupported_media_type, db)
           ∧ serve (create_products (bare_request data)) db
             = (unsupported_media_type, db)
           ∧ serve (update_products (bare_request data) k) db
             = (unsupported_media_type, db)).
Proof.
  assert (¬ json_content_type req →
          serve (create_products req) db = (unsupported_media_type, db)) as Hc.
  { intros Hct. unfold serve. by rewrite create_products_run, bool_decide_eq_false_2. }
  assert (¬ json_content_type req →
          serve (update_products req k) db = (unsupported_media_type, db)) as Hu.
  { intros Hct. unfold serve. by rewrite update_products_run, bool_decide_eq_false_2. }
  assert (json_content_type req →
          status (serve (create_products req) db).1 ≠ HTTP_415_UNSUPPORTED_MEDIA_TYPE)
    as Hc'.
  { intros Hct. by destruct (create_products_status req db Hct) as [->| ->]. }
  assert (json_content_type req →
          status (serve (update_products req k) db).1 ≠ HTTP_415_UNSUPPORTED_MEDIA_TYPE)
    as Hu'.
  { intros Hct. by destruct (update_products_status req k db Hct) as [->|[->| ->]]. }
  assert (Decision (json_content_type req)) as Hdec
    by (unfold json_content_type; apply _).
  split; [|split; [|split; [|split; [|split; [|split]]]]].
  - split; [exact Hc|]. intros Hrun Hct. apply (Hc' Hct). by rewrite Hrun.
  - split; [exact Hu|]. intros Hrun Hct. apply (Hu' Hct). by rewrite Hrun.
  - split; [exact Hc'|].
    intros Hst. destruct Hdec as [Hct|Hct]; [done|]. by rewrite (Hc Hct) in Hst.
  - split; [exact Hu'|].
    intros Hst. destruct Hdec as [Hct|Hct]; [done|]. by rewrite (Hu Hct) in Hst.
  - unfold json_content_type. by intros ->.
  - unfold json_content_type. by intros ->.
  - intros data. unfold serve.
    by rewrite !create_products_run, !update_products_run.
Qed.

(** ** Listing *)

Lemma lower_ascii_idemp (c : ascii) : lower_ascii (lower_ascii c) = lower_ascii c.
Proof.
  destruct c as [[] [] [] [] [] [] [] []]; reflexivity.
Qed.

Lemma lower_idemp (s : string) : lower (lower s) = lower s.
Proof.
  induction s as [|c s IH]; [reflexivity|].
  cbn [lower]. by rewrite lower_ascii_idemp, IH.
Qed.

(** C2, as amended. A list request selects by exactly one filter, the
    first that counts: [name] when it is given with a value that is not
    empty, else [category] when it is given with a value that is not
    empty, else [available] when it is present at all, else no filter.
    The answer is 200 with the selected records and the store is not
    touched.  Where neither [name] nor [category] is given empty this
    is precedence by presence. *)
Theorem list_products_filter_precedence (req : Request) (db : Store) :
  serve (list_products req) db = (list_response (selection_by_value req db), db)
  ∧ (args_get (args req) "name" ≠ Some "" →
     args_get (args req) "category" ≠ Some "" →
     selection_by_value req db = selection_by_presence req db).
Proof.
  split.
  - unfold serve. by rewrite list_products_run.
  - unfold selection_by_value, selection_by_presence, given.
    intros Hn Hc.
    destruct (args_get (args req) "name") as [[|a n]|]; [done|done|].
    by destruct (args_get (args req) "category") as [[|a c]|].
Qed.

(** C2, as stated, fails: with [name] present and empty and
    [category=CLOTHS], the answer is the selection by category, the one
    record of the store, and not the selection by the name, which is
    empty. *)
Lemma list_products_empty_name_falls_through :
  args_get (args (query_request [("name", ""); ("category", "CLOTHS")])) "name"
  = Some ""
  ∧ serve (list_products (query_request [("name", ""); ("category", "CLOTHS")]))
      fedora_store
    = (list_response [of_row 1 fedora_row], fedora_store)
  ∧ selection_by_presence (query_request [("name", ""); ("category", "CLOTHS")])
      fedora_store = []
  ∧ serve (list_products (query_request [("name", ""); ("category", "CLOTHS")]))
      fedora_store
    ≠ (list_response
         (selection_by_presence
            (query_request [("name", ""); ("category", "CLOTHS")]) fedora_store),
       fedora_store).
Proof.
  assert (serve (list_products (query_request [("name", ""); ("category", "CLOTHS")]))
            fedora_store
          = (list_response [of_row 1 fedora_row], fedora_store)) as Hrun
    by reflexivity.
  assert (selection_by_presence (query_request [("name", ""); ("category", "CLOTHS")])
            fedora_store = []) as Hsel by reflexivity.
  split; [reflexivity|]. split; [exact Hrun|]. split; [exact Hsel|].
  rewrite Hrun, Hsel. unfold list_response, jsonify_list. cbn [fmap list_fmap].
  intros [=].
Qed.

(** C9. When the list request selects by availability (neither [name]
    nor [category] is given with a value), the value of [available] is
    lowered and compared with [true], [1] and [yes]:
    the selection is for [true] exactly when the lowered value is one
    of the three, and for [false] on every other string.  Two values
    that differ only in the case of their letters select the same. *)
Theorem available_parsed_case_insensitively
    (req : Request) (db : Store) (s : string) :
  given req "name" = None →
  given req "category" = None →
  args_get (args req) "available" = Some s →
  serve (list_products req) db
  = (list_response (Product_find_by_availability (parse_available s) db), db)
  ∧ (parse_available s = true
     ↔ lower s = "true" ∨ lower s = "1" ∨ lower s = "yes")
  ∧ (parse_available s = false
     ↔ lower s ≠ "true" ∧ lower s ≠ "1" ∧ lower s ≠ "yes")
  ∧ parse_available (lower s) = parse_available s
  ∧ ∀ t, lower t = lower s → parse_available t = parse_available s.
Proof.
  intros Hn Hc Ha.
  assert (parse_available s = true
          ↔ lower s = "true" ∨ lower s = "1" ∨ lower s = "yes") as Htrue.
  { unfold parse_available. rewrite bool_decide_eq_true.
    rewrite !elem_of_cons, elem_of_nil. tauto. }
  split; [|split; [exact Htrue|split; [|split]]].
  - unfold serve. rewrite list_products_run.
    unfold selection_by_value. by rewrite Hn, Hc, Ha.
  - rewrite <- not_true_iff_false, Htrue. tauto.
  - unfold parse_available. by rewrite lower_idemp.
  - intros t Ht. unfold parse_available. by rewrite Ht.
Qed.

Lemma available_parsed_case_insensitively_witness :
  args_get (args (query_request [("available", "YeS")])) "available" = Some "YeS"
  ∧ serve (list_products (query_request [("available", "YeS")])) fedora_store
    = (list_response (Product_find_by_availability (parse_available "YeS") fedora_store),
       fedora_store)
  ∧ parse_available "YeS" = true.
Proof.
  split; [reflexivity|].
  split; [|reflexivity].
  exact (proj1 (available_parsed_case_insensitively
                  (query_request [("available", "YeS")]) fedora_store "YeS"
                  eq_refl eq_refl eq_refl)).
Defined.

(** * Further properties of the handlers *)

Lemma accepted_body_iff (self : Product) (req : Request) :
  accepted_body req ↔ ∃ data e, json req = Some data ∧ deserialize self data = Ok e.
Proof.
  split.
  - intros (m & Hjson & Hm). apply (valid_mapping_iff_accepted self) in Hm as [e He].
    by exists (PDict m), e.
  - intros (data & e & Hjson & He).
    pose proof He as (m & -> & _)%deserialize_Ok_inv.
    exists m. split; [done|]. by eapply deserialize_Ok_valid.
Qed.

Lemma deserialize_Ok_truthy (self e : Product) (data : pyval) :
  deserialize self data = Ok e → truthy data = true.
Proof.
  intros He. pose proof He as (m & -> & _)%deserialize_Ok_inv.
  by eapply valid_mapping_truthy, deserialize_Ok_valid.
Qed.

(** What a POST does to the store and which status it gives, by cases
    on the request. *)
Lemma create_products_cases (req : Request) (db : Store) :
  (¬ json_content_type req
   ∧ serve (create_products req) db = (unsupported_media_type, db))
  ∨ (json_content_type req ∧ ¬ accepted_body req
     ∧ status (serve (create_products req) db).1 = HTTP_400_BAD_REQUEST
     ∧ (serve (create_products req) db).2 = db)
  ∨ (json_content_type req ∧ accepted_body req
     ∧ ∃ e, serve (create_products req) db
            = (entity_response HTTP_201_CREATED (set_id (Some (next_id db)) e)
                 [("Location", location_of req (next_id db))],
               insert_row (next_id db) e db (next_id db + 1))).
Proof.
  destruct (decide (headers_get (headers req) "Content-Type" = Some "application/json"))
    as [Hct|Hct].
  2:{ left. split; [done|]. unfold serve.
      by rewrite create_products_run, bool_decide_eq_false_2. }
  right. unfold serve.
  rewrite create_products_run, bool_decide_eq_true_2 by done.
  destruct (json req) as [data|] eqn:Hjson.
  2:{ left. split; [done|]. split; [|done]. intros (m & ? & _). congruence. }
  destruct (deserialize Product_new data) as [err|e] eqn:He.
  - left. assert (¬ accepted_body req) as Hna.
    { intros (data' & e & Hj & He')%(accepted_body_iff Product_new).
      assert (data' = data) as -> by congruence.
      rewrite He in He'. discriminate. }
    split; [done|]. split; [done|].
    destruct (truthy data); [|done].
    by apply deserialize_raises in He as [msg ->].
  - right. rewrite (deserialize_Ok_truthy _ _ _ He).
    split; [done|]. split; [|by exists e].
    apply (accepted_body_iff Product_new). by exists data, e.
Qed.


Lemma materialize_insert_fresh (t : gmap Z Row) (k : Z) (r : Row) :
  t !! k = None → materialize (<[k := r]> t) ≡ₚ of_row k r :: materialize t.
Proof.
  intros Hk. unfold materialize.
  by rewrite (map_to_list_insert t k r Hk).
Qed.

Lemma materialize_delete (t : gmap Z Row) (k : Z) (r : Row) :
  t !! k = Some r → of_row k r :: materialize (delete k t) ≡ₚ materialize t.
Proof.
  intros Hk. unfold materialize.
  by rewrite <- (map_to_list_delete t k r Hk).
Qed.

Lemma length_materialize (t : gmap Z Row) : List.length (materialize t) = size t.
Proof. unfold materialize. by rewrite length_fmap, length_map_to_list. Qed.

(** X2. On a well-formed store an accepted POST adds exactly one
    record: the collection afterwards is the collection before plus
    the created entity, under the id of the generator; every record
    that was stored is still found, unchanged. *)
Theorem create_products_adds_one_record (req : Request) (db : Store) :
  wf db → json_content_type req → accepted_body req →
  ∃ e, (serve (create_products req) db).1
       = entity_response HTTP_201_CREATED (set_id (Some (next_id db)) e)
           [("Location", location_of req (next_id db))]
     ∧ Product_all (serve (create_products req) db).2
       ≡ₚ set_id (Some (next_id db)) e :: Product_all db
     ∧ List.length (Product_all (serve (create_products req) db).2)
       = S (List.length (Product_all db))
     ∧ (set_id (Some (next_id db)) e ∉ Product_all db)
     ∧ ∀ j q, Product_find j db = Some q →
              Product_find j (serve (create_products req) db).2 = Some q.
Proof.
  intros Hwf Hct Hacc.
  destruct (create_products_cases req db)
    as [[Hct' _]|[(_ & Hna & _)|(_ & _ & e & Hrun)]]; [done|done|].
  pose proof (wf_next_id_fresh db Hwf) as Hfresh.
  apply Product_find_None in Hfresh.
  exists e. rewrite Hrun. cbn [fst snd].
  assert (Product_all (insert_row (next_id db) e db (next_id db + 1))
          ≡ₚ set_id (Some (next_id db)) e :: Product_all db) as Hperm.
  { unfold Product_all, insert_row. cbn.
    by rewrite (materialize_insert_fresh _ _ (to_row e) Hfresh). }
  split; [done|]. split; [exact Hperm|]. split; [by rewrite Hperm|]. split.
  - unfold Product_all. intros (k & r & Hkr & Heq)%elem_of_materialize.
    assert (k = next_id db) as -> by (apply (f_equal id) in Heq; cbn in Heq; congruence).
    congruence.
  - intros j q (r & Hr & ->)%Product_find_Some.
    unfold Product_find, insert_row. cbn.
    rewrite lookup_insert_ne by congruence. by rewrite Hr.
Qed.

Lemma accepted_body_json_request_fedora : accepted_body (json_request (PDict fedora)).
Proof. exists fedora. split; [reflexivity|exact fedora_valid]. Qed.

Lemma create_products_adds_one_record_witness :
  wf fedora_store ∧ json_content_type (json_request (PDict fedora))
  ∧ accepted_body (json_request (PDict fedora))
  ∧ List.length (Product_all (serve (create_products (json_request (PDict fedora)))
                           fedora_store).2) = 2%nat.
Proof.
  split; [exact wf_fedora_store|]. split; [reflexivity|].
  split; [exact accepted_body_json_request_fedora|].
  destruct (create_products_adds_one_record (json_request (PDict fedora)) fedora_store
              wf_fedora_store eq_refl accepted_body_json_request_fedora)
    as (e & _ & _ & Hlen & _).
  exact Hlen.
Defined.

(** What a PUT does to the store and which status it gives, by cases
    on the request and on the record. *)
Lemma update_products_cases (req : Request) (k : Z) (db : Store) :
  (¬ json_content_type req
   ∧ serve (update_products req k) db = (unsupported_media_type, db))
  ∨ (json_content_type req ∧ Product_find k db = None
     ∧ serve (update_products req k) db = (not_found k, db))
  ∨ (json_content_type req ∧ is_Some (Product_find k db) ∧ ¬ accepted_body req
     ∧ status (serve (update_products req k) db).1 = HTTP_400_BAD_REQUEST
     ∧ (serve (update_products req k) db).2 = db)
  ∨ (json_content_type req ∧ is_Some (Product_find k db) ∧ accepted_body req
     ∧ ∃ e, serve (update_products req k) db
            = (entity_response HTTP_200_OK (set_id (Some k) e) [],
               insert_row k e db (next_id db))).
Proof.
  destruct (decide (headers_get (headers req) "Content-Type" = Some "application/json"))
    as [Hct|Hct].
  2:{ left. split; [done|]. unfold serve.
      by rewrite update_products_run, bool_decide_eq_false_2. }
  right. unfold serve.
  rewrite update_products_run, bool_decide_eq_true_2 by done.
  destruct (Product_find k db) as [p|] eqn:Hfind; [|by left].
  right. destruct (json req) as [data|] eqn:Hjson.
  2:{ left. split; [done|]. split; [by eexists|]. split; [|done].
      intros (m & ? & _). congruence. }
  destruct (deserialize p data) as [err|e] eqn:He.
  - left. assert (¬ accepted_body req) as Hna.
    { intros (data' & e & Hj & He')%(accepted_body_iff p).
      assert (data' = data) as -> by congruence.
      rewrite He in He'. discriminate. }
    split; [done|]. split; [by eexists|]. split; [done|].
    destruct (truthy data); [|done].
    by apply deserialize_raises in He as [msg ->].
  - right. rewrite (deserialize_Ok_truthy _ _ _ He).
    split; [done|]. split; [by eexists|]. split; [|by exists e].
    apply (accepted_body_iff p). by exists data, e.
Qed.


(** X4. GET of one record never changes the store.  It is answered
    200 exactly when the id has a record, and then with the serialized
    record, whose [id] is the id of the path; otherwise it is answered
    404 with a message that names the id. *)
Theorem get_products_outcome (k : Z) (db : Store) :
  (serve (get_products k) db).2 = db
  ∧ (status (serve (get_products k) db).1 = HTTP_200_OK
     ↔ is_Some (Product_find k db))
  ∧ (status (serve (get_products k) db).1 = HTTP_404_NOT_FOUND
     ↔ Product_find k db = None)
  ∧ (∀ p, Product_find k db = Some p →
       (serve (get_products k) db).1 = entity_response HTTP_200_OK p []
       ∧ serialize p !! "id" = Some (PNum k 0)
       ∧ p ∈ Product_all db)
  ∧ (Product_find k db = None →
       body (serve (get_products k) db).1
       = Text ("Product with id '" ++ pretty k ++ "' not found")).
Proof.
  unfold serve. rewrite get_products_run.
  destruct (Product_find k db) as [p|] eqn:Hfind; cbn.
  - split; [done|]. split; [split; [by eexists|done]|].
    split; [done|]. split; [|done].
    intros q [= <-]. split; [done|].
    apply Product_find_Some in Hfind as (r & Hr & ->).
    split; [by apply serialize_lookup|].
    apply elem_of_materialize. by exists k, r.
  - split; [done|]. split; [split; [done|by intros [? ?]]|].
    split; [done|]. split; [done|]. done.
Qed.

(** X5. Create, then read: after an accepted POST, a GET on the id
    of the [Location] header is answered 200 with the very body the
    POST returned, and reading does not change the store. *)
Theorem create_then_get (req : Request) (db : Store) :
  json_content_type req → accepted_body req →
  status (serve (create_products req) db).1 = HTTP_201_CREATED
  ∧ response_headers (serve (create_products req) db).1
    = [("Location", location_of req (next_id db))]
  ∧ serve (get_products (next_id db)) (serve (create_products req) db).2
    = ({| status := HTTP_200_OK;
          body := body (serve (create_products req) db).1;
          response_headers := [] |},
       (serve (create_products req) db).2).
Proof.
  intros Hct Hacc.
  destruct (create_products_cases req db)
    as [[Hct' _]|[(_ & Hna & _)|(_ & _ & e & Hrun)]]; [done|done|].
  rewrite Hrun. cbn [fst snd]. split; [done|]. split; [done|].
  unfold serve. rewrite get_products_run.
  unfold Product_find, insert_row. cbn. by rewrite lookup_insert_eq.
Qed.

Lemma create_then_get_witness :
  json_content_type (json_request (PDict fedora))
  ∧ accepted_body (json_request (PDict fedora))
  ∧ status (serve (get_products 1)
              (serve (create_products (json_request (PDict fedora))) empty_store).2).1
    = HTTP_200_OK.
Proof.
  split; [reflexivity|]. split; [exact accepted_body_json_request_fedora|].
  destruct (create_then_get (json_request (PDict fedora)) empty_store
              eq_refl accepted_body_json_request_fedora) as (_ & _ & Hget).
  change (next_id empty_store) with 1 in Hget. by rewrite Hget.
Defined.

(** X6. Update, then read: after an accepted PUT on a stored id, a GET
    on that id is answered 200 with the very body the PUT returned,
    and a GET on any other id is answered as before the PUT. *)
Theorem update_then_get (req : Request) (k : Z) (db : Store) :
  json_content_type req → accepted_body req → is_Some (Product_find k db) →
  status (serve (update_products req k) db).1 = HTTP_200_OK
  ∧ (serve (get_products k) (serve (update_products req k) db).2).1
    = (serve (update_products req k) db).1
  ∧ ∀ j, j ≠ k →
      (serve (get_products j) (serve (update_products req k) db).2).1
      = (serve (get_products j) db).1.
Proof.
  intros Hct Hacc Hsome.
  destruct (update_products_cases req k db)
    as [[Hct' _]|[(_ & Hnone & _)
       |[(_ & _ & Hna & _)|(_ & _ & _ & e & Hrun)]]]; [done| |done|].
  { rewrite Hnone in Hsome. by destruct Hsome. }
  rewrite Hrun. cbn [fst snd]. split; [done|].
  unfold serve. rewrite !get_products_run. split.
  - unfold Product_find, insert_row. cbn. by rewrite lookup_insert_eq.
  - intros j Hj. rewrite !get_products_run.
    unfold Product_find, insert_row. cbn.
    rewrite lookup_insert_ne by congruence. by destruct (rows db !! j).
Qed.

Lemma update_then_get_witness :
  json_content_type (json_request (PDict fedora))
  ∧ accepted_body (json_request (PDict fedora))
  ∧ is_Some (Product_find 1 fedora_store)
  ∧ status (serve (update_products (json_request (PDict fedora)) 1) fedora_store).1
    = HTTP_200_OK.
Proof.
  split; [reflexivity|]. split; [exact accepted_body_json_request_fedora|].
  split; [by eexists|].
  exact (proj1 (update_then_get (json_request (PDict fedora)) 1 fedora_store
                  eq_refl accepted_body_json_request_fedora
                  (ex_intro _ _ eq_refl))).
Defined.

(** X7. DELETE of a stored id removes exactly that record: the
    collection before is the collection afterwards plus the deleted
    record, which is no longer listed; a GET on the id is answered 404
    and so is a PUT with a JSON body. *)
Theorem delete_products_removes_one_record (k : Z) (db : Store) (p : Product) :
  Product_find k db = Some p →
  p :: Product_all (serve (delete_products k) db).2 ≡ₚ Product_all db
  ∧ (p ∉ Product_all (serve (delete_products k) db).2)
  ∧ List.length (Product_all db)
    = S (List.length (Product_all (serve (delete_products k) db).2))
  ∧ (serve (get_products k) (serve (delete_products k) db).2).1 = not_found k
  ∧ ∀ req, json_content_type req →
      serve (update_products req k) (serve (delete_products k) db).2
      = (not_found k, (serve (delete_products k) db).2).
Proof.
  intros Hfind.
  pose proof Hfind as (r & Hr & ->)%Product_find_Some.
  set (db' := {| rows := delete k (rows db); next_id := next_id db |}).
  assert (serve (delete_products k) db = (no_content, db')) as Hrun.
  { unfold serve. by rewrite delete_products_run, Hfind. }
  rewrite Hrun. cbn [fst snd].
  assert (Product_find k db' = None) as Hgone.
  { apply Product_find_None. cbn. apply lookup_delete_eq. }
  assert (of_row k r :: Product_all db' ≡ₚ Product_all db) as Hperm.
  { unfold Product_all, db'. cbn. by apply materialize_delete. }
  split; [exact Hperm|]. split; [|split; [by rewrite <- Hperm|split]].
  - unfold Product_all. intros (j & r' & Hjr & Heq)%elem_of_materialize.
    apply of_row_inj in Heq as [<- <-]. cbn in Hjr.
    by rewrite lookup_delete_eq in Hjr.
  - unfold serve. by rewrite get_products_run, Hgone.
  - intros req Hct. unfold serve.
    by rewrite update_products_run, bool_decide_eq_true_2, Hgone.
Qed.

Lemma delete_products_removes_one_record_witness :
  Product_find 1 fedora_store = Some (of_row 1 fedora_row)
  ∧ (serve (get_products 1) (serve (delete_products 1) fedora_store).2).1
    = not_found 1.
Proof.
  split; [reflexivity|].
  destruct (delete_products_removes_one_record 1 fedora_store (of_row 1 fedora_row)
              eq_refl) as (_ & _ & _ & Hget & _).
  exact Hget.
Defined.


Lemma response_entries_list_response (l : list Product) :
  response_entries (list_response l) = serialize <$> l.
Proof.
  unfold response_entries, list_response, jsonify_list. cbn [body].
  induction l as [|p l IH]; [reflexivity|]. cbn. by rewrite IH.
Qed.

Lemma elem_of_materialize_filter
    (P : Z * Row → Prop) `{!∀ kr, Decision (P kr)} (t : gmap Z Row) (p : Product) :
  p ∈ materialize (filter P t) ↔ ∃ k r, t !! k = Some r ∧ P (k, r) ∧ p = of_row k r.
Proof.
  rewrite elem_of_materialize. split.
  - intros (k & r & [Hkr HP]%map_lookup_filter_Some & ->). by exists k, r.
  - intros (k & r & Hkr & HP & ->). exists k, r. split; [|done].
    by apply map_lookup_filter_Some.
Qed.

Lemma serve_list_products (req : Request) (db : Store) :
  serve (list_products req) db = (list_response (selection_by_value req db), db).
Proof. unfold serve. by rewrite list_products_run. Qed.

(** Whatever a list request selects is stored. *)
Lemma selection_by_value_stored (req : Request) (db : Store) (p : Product) :
  p ∈ selection_by_value req db → ∃ k r, rows db !! k = Some r ∧ p = of_row k r.
Proof.
  unfold selection_by_value, Product_find_by_name, Product_find_by_category,
    Product_find_by_availability, Product_all.
  destruct (given req "name");
    [by intros (k & r & ? & _ & ?)%elem_of_materialize_filter; eauto|].
  destruct (given req "category");
    [by intros (k & r & ? & _ & ?)%elem_of_materialize_filter; eauto|].
  destruct (args_get (args req) "available");
    [by intros (k & r & ? & _ & ?)%elem_of_materialize_filter; eauto|].
  by intros ?%elem_of_materialize.
Qed.

(** X9. Every entry of a list answer passes the filter that was
    applied: with [name] given, every entry has that name; else with
    [category] given, every entry has that category; else with
    [available] present, every entry has the parsed availability. *)
Theorem list_products_entries_match
    (req : Request) (db : Store) (d : gmap string pyval) :
  d ∈ response_entries (serve (list_products req) db).1 →
  (∀ n, given req "name" = Some n → d !! "name" = Some (PStr n))
  ∧ (∀ c, given req "name" = None → given req "category" = Some c →
       d !! "category" = Some (PStr c))
  ∧ (∀ a, given req "name" = None → given req "category" = None →
       args_get (args req) "available" = Some a →
       d !! "available" = Some (PBool (parse_available a))).
Proof.
  rewrite serve_list_products. cbn [fst].
  rewrite response_entries_list_response.
  intros (p & -> & Hp)%list_elem_of_fmap.
  destruct (serialize_lookup p) as (Hname & _ & _ & Hav & Hcat & _).
  unfold selection_by_value in Hp. split; [|split].
  - intros n Hn. rewrite Hn in Hp.
    apply elem_of_materialize_filter in Hp as (k & r & _ & HP & ->).
    cbn in HP. by rewrite Hname, <- HP.
  - intros c Hn Hc. rewrite Hn, Hc in Hp.
    apply elem_of_materialize_filter in Hp as (k & r & _ & HP & ->).
    cbn in HP. by rewrite Hcat, <- HP.
  - intros a Hn Hc Ha. rewrite Hn, Hc, Ha in Hp.
    apply elem_of_materialize_filter in Hp as (k & r & _ & HP & ->).
    cbn in HP. by rewrite Hav, <- HP.
Qed.

Lemma list_products_entries_match_witness :
  serialize (of_row 1 fedora_row)
    ∈ response_entries
        (serve (list_products (query_request [("category", "CLOTHS")])) fedora_store).1
  ∧ serialize (of_row 1 fedora_row) !! "category" = Some (PStr "CLOTHS").
Proof.
  assert (serialize (of_row 1 fedora_row)
            ∈ response_entries
                (serve (list_products (query_request [("category", "CLOTHS")]))
                   fedora_store).1) as Hin.
  { change (serialize (of_row 1 fedora_row) ∈ [serialize (of_row 1 fedora_row)]).
    apply list_elem_of_here. }
  split; [exact Hin|].
  exact (proj1 (proj2 (list_products_entries_match
                         (query_request [("category", "CLOTHS")]) fedora_store
                         (serialize (of_row 1 fedora_row)) Hin))
           "CLOTHS" eq_refl eq_refl).
Defined.

(** X10. Every entry of a list answer, whatever the filter, is a
    stored record: it carries the id of a record, and a GET on that id
    is answered 200 with the same mapping. *)
Theorem list_products_entries_are_records
    (req : Request) (db : Store) (d : gmap string pyval) :
  d ∈ response_entries (serve (list_products req) db).1 →
  ∃ k p, Product_find k db = Some p
    ∧ d = serialize p
    ∧ d !! "id" = Some (PNum k 0)
    ∧ serve (get_products k) db
      = ({| status := HTTP_200_OK; body := Json (PDict d); response_headers := [] |},
         db).
Proof.
  rewrite serve_list_products. cbn [fst].
  rewrite response_entries_list_response.
  intros (p & -> & Hp)%list_elem_of_fmap.
  apply selection_by_value_stored in Hp as (k & r & Hkr & ->).
  exists k, (of_row k r).
  assert (Product_find k db = Some (of_row k r)) as Hfind
    by (apply Product_find_Some; eauto).
  split; [exact Hfind|]. split; [done|]. split; [by apply serialize_lookup|].
  unfold serve. by rewrite get_products_run, Hfind.
Qed.

Lemma list_products_entries_are_records_witness :
  serialize (of_row 1 fedora_row)
    ∈ response_entries (serve (list_products (query_request [])) fedora_store).1
  ∧ ∃ k p, Product_find k fedora_store = Some p
      ∧ serialize (of_row 1 fedora_row) = serialize p.
Proof.
  assert (serialize (of_row 1 fedora_row)
            ∈ response_entries (serve (list_products (query_request [])) fedora_store).1)
    as Hin.
  { change (serialize (of_row 1 fedora_row) ∈ [serialize (of_row 1 fedora_row)]).
    apply list_elem_of_here. }
  split; [exact Hin|].
  destruct (list_products_entries_are_records (query_request []) fedora_store
              (serialize (of_row 1 fedora_row)) Hin) as (k & p & Hfind & Heq & _).
  by exists k, p.
Defined.

(** X11. A list request never changes the store and never lists more
    entries than there are records.  Without [name], [category] and
    [available] it lists the whole collection: as many entries as
    there are records, one for every record that a GET can find. *)
Theorem list_products_unfiltered (req : Request) (db : Store) :
  (serve (list_products req) db).2 = db
  ∧ (List.length (response_entries (serve (list_products req) db).1)
     ≤ size (rows db))%nat
  ∧ (given req "name" = None → given req "category" = None →
     args_get (args req) "available" = None →
     List.length (response_entries (serve (list_products req) db).1)
     = size (rows db)
     ∧ ∀ k p, Product_find k db = Some p →
         serialize p ∈ response_entries (serve (list_products req) db).1).
Proof.
  rewrite serve_list_products. cbn [fst snd].
  rewrite response_entries_list_response, length_fmap.
  split; [done|]. split.
  - unfold selection_by_value, Product_find_by_name, Product_find_by_category,
      Product_find_by_availability, Product_all.
    assert (∀ (P : Z * Row → Prop) `{!∀ kr, Decision (P kr)},
              (List.length (materialize (filter P (rows db))) ≤ size (rows db))%nat)
      as Hle.
    { intros P ?. rewrite length_materialize.
      apply map_subseteq_size, map_filter_subseteq. }
    destruct (given req "name"); [apply Hle|].
    destruct (given req "category"); [apply Hle|].
    destruct (args_get (args req) "available"); [apply Hle|].
    by rewrite length_materialize.
  - intros Hn Hc Ha. unfold selection_by_value. rewrite Hn, Hc, Ha.
    unfold Product_all. split; [apply length_materialize|].
    intros k p (r & Hr & ->)%Product_find_Some.
    apply list_elem_of_fmap_2, elem_of_materialize. eauto.
Qed.

(** ** Sequences of calls *)







(** ** Element identifiers *)










(** ** Truth values in the steps and in the list endpoint *)

(** X14. The steps read a truth value more strictly than the list
    endpoint: whatever the steps take for true the endpoint takes for
    true, and the two disagree exactly on the values that read [1] or
    [yes] once lowered, which the steps take for false. *)
Theorem step_available_stricter_than_parse_available (value : string) :
  (step_available value = true ↔ lower value = "true")
  ∧ (step_available value = true → parse_available value = true)
  ∧ (step_available value ≠ parse_available value
     ↔ lower value = "1" ∨ lower value = "yes").
Proof.
  unfold step_available, parse_available.
  destruct (String.eqb_spec (lower value) "true") as [Heq|Hne].
  - rewrite Heq. split; [done|]. split; [done|].
    split; [done|]. intros [?|?]; done.
  - split; [done|]. split; [done|].
    set (b := bool_decide _).
    assert (b = true ↔ lower value = "1" ∨ lower value = "yes") as Hb.
    { unfold b. rewrite bool_decide_eq_true, !elem_of_cons, elem_of_nil. tauto. }
    rewrite <- Hb. by destruct b.
Qed.

(** ** Steps *)



Section product_steps_facts.
Variable python_float : string → option pyval.




End product_steps_facts.


(** X16. Pressing [Create] with a product in the context never
    raises.  The [Success] check that follows passes exactly when the
    product is a mapping that [deserialize] accepts; then the context
    holds the id that the store handed out and the record can be
    found under it.  Otherwise the store and the remembered id are as
    they were and the check fails with an assertion error.  With no
    product in the context the step ends in an attribute error. *)
Theorem step_press_create_outcome
    (ctx : Context) (db : Store) (product : gmap string pyval) :
  ctx_product ctx = Some product →
  ∃ ctx' db', step_press_create ctx db = (inr ctx', db')
    ∧ (step_see_success ctx' = inr tt ↔ valid_mapping product)
    ∧ (valid_mapping product →
         ctx_product_id ctx' = Some (PNum (next_id db) 0)
         ∧ is_Some (Product_find (next_id db) db')
         ∧ next_id db' = next_id db + 1)
    ∧ (¬ valid_mapping product →
         db' = db ∧ ctx_product_id ctx' = ctx_product_id ctx
         ∧ step_see_success ctx' = inl AssertionError)
    ∧ step_press_create
        {| ctx_product := None; ctx_response := ctx_response ctx;
           ctx_product_id := ctx_product_id ctx |} db
      = (inl AttributeError, db).
Proof.
  intros Hprod. unfold step_press_create. rewrite Hprod.
  destruct (create_products_cases (requests_json (PDict product)) db)
    as [[Hct _]|[(_ & Hna & Hst & Hdb)|(_ & (m & [= <-] & Hm) & e & Hrun)]];
    [done| |].
  - assert (¬ valid_mapping product) as Hnv.
    { intros Hv. apply Hna. by exists product. }
    destruct (serve (create_products (requests_json (PDict product))) db)
      as [r db'] eqn:Hserve. cbn [fst snd] in Hst, Hdb. subst db'.
    unfold response_ok. rewrite Hst. cbn.
    eexists _, _. split; [reflexivity|].
    unfold step_see_success. cbn. rewrite Hst. cbn.
    split; [split; [done|tauto]|]. split; [tauto|]. done.
  - rewrite Hrun. cbn.
    destruct (serialize_lookup (set_id (Some (next_id db)) e))
      as (_ & _ & _ & _ & _ & Hid).
    rewrite Hid. cbn.
    eexists _, _. split; [reflexivity|].
    split; [done|]. split; [|split; [tauto|done]].
    intros _. split; [done|]. split; [|done].
    unfold Product_find. cbn. rewrite lookup_insert_eq. by eexists.
Qed.

Lemma step_press_create_outcome_witness :
  ctx_product (with_product new_context fedora) = Some fedora
  ∧ ∃ ctx' db', step_press_create (with_product new_context fedora) empty_store
                = (inr ctx', db')
      ∧ (step_see_success ctx' = inr tt ↔ valid_mapping fedora).
Proof.
  split; [reflexivity|].
  destruct (step_press_create_outcome (with_product new_context fedora) empty_store
              fedora eq_refl) as (ctx' & db' & Hrun & Hiff & _).
  exists ctx', db'. split; [exact Hrun|exact Hiff].
Defined.


